(** * Forge AI product designer: generation pipeline, ingestion and persistence

    A shallow embedding of the TypeScript sources

    - [services/geminiService.ts] (the variant with [generateContentWithRetry]),
    - [services/firebase.ts] ([loadProject]),
    - [App.tsx] ([ProjectProvider]: [addResearch], [updateIdea],
      [generateArtifact], [resetProject], the autosave effect, and the
      trigger buttons of the stage pages),

    followed by the theorems that settle the claims C1 to C10.

    Asynchronous functions are modelled in a small monad over an explicit
    world (React state, backend call log, delays, console, alerts) whose
    computations end in one of three ways: the promise resolves, it rejects,
    or it never settles. *)

From Stdlib Require Import ZArith String Ascii List Bool Lia DecimalString.
From stdpp Require Import base strings gmap list.
Import ListNotations.

(** ** JavaScript primitives used by the sources *)

Module Js.

(** Truthiness of a string: only the empty string is falsy. *)
Definition truthy (s : string) : bool :=
  match s with
  | EmptyString => false
  | String _ _ => true
  end.

(** Truthiness of [string | undefined | null]. *)
Definition truthy_opt (s : option string) : bool :=
  match s with
  | Some s => truthy s
  | None => false
  end.

(** [a || b] on strings. *)
Definition or (a b : string) : string := if truthy a then a else b.

(** [a || b] where [a] may be undefined. *)
Definition or_opt (a : option string) (b : string) : string :=
  match a with
  | Some s => or s b
  | None => b
  end.

(** [hay.includes(needle)]. *)
Fixpoint includes (needle hay : string) : bool :=
  String.prefix needle hay ||
  match hay with
  | EmptyString => false
  | String _ rest => includes needle rest
  end.

(** [s.split(',')]: the pieces between commas; never the empty array. *)
Fixpoint split_comma (s : string) : list string :=
  match s with
  | EmptyString => [EmptyString]
  | String c rest =>
      if Ascii.eqb c ","%char then EmptyString :: split_comma rest
      else match split_comma rest with
           | piece :: pieces => String c piece :: pieces
           | [] => [String c EmptyString]
           end
  end.

(** [a || b] where both may be undefined. *)
Definition or_undef (a b : option string) : option string :=
  if truthy_opt a then a else b.

(** The line feed of a template literal. *)
Definition nl : string := String (ascii_of_nat 10) EmptyString.

(** Whether a string is free of commas. *)
Fixpoint no_comma (s : string) : bool :=
  match s with
  | EmptyString => true
  | String c rest => negb (Ascii.eqb c ","%char) && no_comma rest
  end.

(** [`${v}`] for a value that may be undefined. *)
Definition interpolate (v : option string) : string :=
  match v with
  | Some s => s
  | None => "undefined"
  end.

(** [s.substring(0, n)].  The characters of a string stand for the UTF-16
    code units of the source's string, which they are for ASCII text; the
    cut is at [n] of them. *)
Definition substring0 (n : nat) (s : string) : string := String.substring 0 n s.

(** [x === n] for a property that may be absent. *)
Definition strict_eq_num (x : option Z) (n : Z) : bool :=
  match x with
  | Some v => Z.eqb v n
  | None => false
  end.

End Js.

(** ** Data model ([types.ts] as used by the sources) *)

Inductive ProjectStep : Type :=
| IDEA | RESEARCH | PRD | PLANNING | DESIGN | CODE.

Definition ProjectStep_eqb (a b : ProjectStep) : bool :=
  match a, b with
  | IDEA, IDEA | RESEARCH, RESEARCH | PRD, PRD
  | PLANNING, PLANNING | DESIGN, DESIGN | CODE, CODE => true
  | _, _ => false
  end.

Inductive DocSource : Type := upload | external.

(** [content] is [undefined] when [split(',')[1]] picked a missing piece. *)
Record ResearchDocument : Type := {
  doc_id : string;
  doc_name : string;
  doc_content : option string;
  doc_mimeType : string;
  doc_source : DocSource
}.

Record ProjectState : Type := {
  project_id : option string;          (* the optional [id] field *)
  title : string;
  currentStep : ProjectStep;
  research : list ResearchDocument;
  ideaInput : string;
  synthesizedIdea : string;
  prdOutput : string;
  roadmapOutput : string;
  designSystemOutput : string;
  codePromptOutput : string;
  isGenerating : bool
}.

Definition initialState : ProjectState := {|
  project_id := None;
  title := "Untitled Project";
  currentStep := IDEA;
  research := [];
  ideaInput := "";
  synthesizedIdea := "";
  prdOutput := "";
  roadmapOutput := "";
  designSystemOutput := "";
  codePromptOutput := "";
  isGenerating := false
|}.

(** The object-spread updates [{ ...prev, field: v }] of the sources. *)
Definition set_isGenerating (b : bool) (p : ProjectState) : ProjectState :=
  {| project_id := project_id p; title := title p; currentStep := currentStep p;
     research := research p; ideaInput := ideaInput p;
     synthesizedIdea := synthesizedIdea p; prdOutput := prdOutput p;
     roadmapOutput := roadmapOutput p; designSystemOutput := designSystemOutput p;
     codePromptOutput := codePromptOutput p; isGenerating := b |}.

Definition set_ideaInput (v : string) (p : ProjectState) : ProjectState :=
  {| project_id := project_id p; title := title p; currentStep := currentStep p;
     research := research p; ideaInput := v;
     synthesizedIdea := synthesizedIdea p; prdOutput := prdOutput p;
     roadmapOutput := roadmapOutput p; designSystemOutput := designSystemOutput p;
     codePromptOutput := codePromptOutput p; isGenerating := isGenerating p |}.

Definition set_research (v : list ResearchDocument) (p : ProjectState) : ProjectState :=
  {| project_id := project_id p; title := title p; currentStep := currentStep p;
     research := v; ideaInput := ideaInput p;
     synthesizedIdea := synthesizedIdea p; prdOutput := prdOutput p;
     roadmapOutput := roadmapOutput p; designSystemOutput := designSystemOutput p;
     codePromptOutput := codePromptOutput p; isGenerating := isGenerating p |}.

Definition set_synthesizedIdea (v : string) (p : ProjectState) : ProjectState :=
  {| project_id := project_id p; title := title p; currentStep := currentStep p;
     research := research p; ideaInput := ideaInput p;
     synthesizedIdea := v; prdOutput := prdOutput p;
     roadmapOutput := roadmapOutput p; designSystemOutput := designSystemOutput p;
     codePromptOutput := codePromptOutput p; isGenerating := isGenerating p |}.

Definition set_prdOutput (v : string) (p : ProjectState) : ProjectState :=
  {| project_id := project_id p; title := title p; currentStep := currentStep p;
     research := research p; ideaInput := ideaInput p;
     synthesizedIdea := synthesizedIdea p; prdOutput := v;
     roadmapOutput := roadmapOutput p; designSystemOutput := designSystemOutput p;
     codePromptOutput := codePromptOutput p; isGenerating := isGenerating p |}.

Definition set_roadmapOutput (v : string) (p : ProjectState) : ProjectState :=
  {| project_id := project_id p; title := title p; currentStep := currentStep p;
     research := research p; ideaInput := ideaInput p;
     synthesizedIdea := synthesizedIdea p; prdOutput := prdOutput p;
     roadmapOutput := v; designSystemOutput := designSystemOutput p;
     codePromptOutput := codePromptOutput p; isGenerating := isGenerating p |}.

Definition set_designSystemOutput (v : string) (p : ProjectState) : ProjectState :=
  {| project_id := project_id p; title := title p; currentStep := currentStep p;
     research := research p; ideaInput := ideaInput p;
     synthesizedIdea := synthesizedIdea p; prdOutput := prdOutput p;
     roadmapOutput := roadmapOutput p; designSystemOutput := v;
     codePromptOutput := codePromptOutput p; isGenerating := isGenerating p |}.

Definition set_codePromptOutput (v : string) (p : ProjectState) : ProjectState :=
  {| project_id := project_id p; title := title p; currentStep := currentStep p;
     research := research p; ideaInput := ideaInput p;
     synthesizedIdea := synthesizedIdea p; prdOutput := prdOutput p;
     roadmapOutput := roadmapOutput p; designSystemOutput := designSystemOutput p;
     codePromptOutput := v; isGenerating := isGenerating p |}.

(** ** Errors, requests and the world *)

(** A thrown value, with the three properties the retry loop inspects. *)
Record JsError : Type := {
  message : option string;
  status : option Z;
  code : option Z
}.

(** [new Error(msg)]. *)
Definition Error (msg : string) : JsError :=
  {| message := Some msg; status := None; code := None |}.

(** One element of the [parts] array built by [generatePRD]. *)
Inductive Part : Type :=
| TextPart (text : string)
| InlineData (mimeType : string) (data : option string).

(** The [contents] argument of a generation call.  Each prompt template of
    the service is one constructor carrying the values interpolated into its
    fixed instructional text; the PRD request carries its parts. *)
Inductive Contents : Type :=
| RefineIdeaPrompt (rawInput : string)
| PrdParts (idea : string) (documents : list Part)
| PlanPrompt (prd : string)
| DesignPrompt (prd plan : string)
| CodePrompt (idea designSystem roadmap : string).

(** [temperature] in tenths: 0.7 is [Some 7]. *)
Record Config : Type := {
  systemInstruction : option string;
  temperature : option Z
}.

Record Request : Type := {
  model : string;
  contents : Contents;
  config : Config
}.

(** [GenerateContentResponse]: only [text] is read. *)
Record Response : Type := { text : option string }.

(** The [GoogleGenAI] client. *)
Record Client : Type := { apiKey : string }.

Inductive BackendResult : Type :=
| Ok (response : Response)
| Failed (error : JsError).

(** A line on the console: the warning of the retry loop, which reads
    "Gemini API 429 hit. Retrying in [waitTime]ms... (Attempt
    [attempt + 1]/[maxRetries])", or a [console.error(label, error)]. *)
Inductive LogLine : Type :=
| RetryWarning (waitTime attemptNumber maxRetries : Z)
| ConsoleError (label : string) (error : JsError).

Record World : Type := {
  state : ProjectState;              (* the provider's React state *)
  currentProjectId : option string;  (* the provider's current project *)
  calls : list (Client * Request);   (* generation calls sent, oldest first *)
  sleeps : list Z;                   (* [delay(ms)] waits, oldest first *)
  console : list LogLine;
  alerts : list string
}.

Definition with_state (f : ProjectState -> ProjectState) (w : World) : World :=
  {| state := f (state w); currentProjectId := currentProjectId w;
     calls := calls w; sleeps := sleeps w;
     console := console w; alerts := alerts w |}.

Definition with_call (c : Client * Request) (w : World) : World :=
  {| state := state w; currentProjectId := currentProjectId w;
     calls := calls w ++ [c]; sleeps := sleeps w;
     console := console w; alerts := alerts w |}.

Definition with_sleep (ms : Z) (w : World) : World :=
  {| state := state w; currentProjectId := currentProjectId w;
     calls := calls w; sleeps := sleeps w ++ [ms];
     console := console w; alerts := alerts w |}.

Definition with_log (l : LogLine) (w : World) : World :=
  {| state := state w; currentProjectId := currentProjectId w;
     calls := calls w; sleeps := sleeps w;
     console := console w ++ [l]; alerts := alerts w |}.

Definition with_alert (msg : string) (w : World) : World :=
  {| state := state w; currentProjectId := currentProjectId w;
     calls := calls w; sleeps := sleeps w;
     console := console w; alerts := alerts w ++ [msg] |}.

(** ** The monad of asynchronous computations *)

Inductive Outcome (A : Type) : Type :=
| Ret (a : A)            (* returns, the promise resolves *)
| Throw (e : JsError)    (* throws, the promise rejects *)
| Pending.               (* the promise never settles *)

Arguments Ret {A} a.
Arguments Throw {A} e.
Arguments Pending {A}.

Definition M (A : Type) : Type := World -> Outcome A * World.

Definition ret {A} (a : A) : M A := fun w => (Ret a, w).
Definition throw {A} (e : JsError) : M A := fun w => (Throw e, w).
Definition never {A} : M A := fun w => (Pending, w).

Definition bind {A B} (m : M A) (k : A -> M B) : M B :=
  fun w =>
    match m w with
    | (Ret a, w') => k a w'
    | (Throw e, w') => (Throw e, w')
    | (Pending, w') => (Pending, w')
    end.

Notation "'let*' x ':=' m 'in' k" := (bind m (fun x => k))
  (at level 10, x name, m at level 100, k at level 200).

(** [try { body } catch (error) { handler }]. *)
Definition try_catch {A} (body : M A) (handler : JsError -> M A) : M A :=
  fun w =>
    match body w with
    | (Throw e, w') => handler e w'
    | r => r
    end.

(** [try { body } finally { fin }]: [fin] runs after [body] returned or
    threw, and its own abrupt completion replaces the body's. *)
Definition try_finally {A} (body : M A) (fin : M unit) : M A :=
  fun w =>
    match body w with
    | (Pending, w') => (Pending, w')
    | (r, w') =>
        match fin w' with
        | (Ret _, w'') => (r, w'')
        | (Throw e, w'') => (Throw e, w'')
        | (Pending, w'') => (Pending, w'')
        end
    end.

Definition setState (f : ProjectState -> ProjectState) : M unit :=
  fun w => (Ret tt, with_state f w).
Definition delay (ms : Z) : M unit := fun w => (Ret tt, with_sleep ms w).
Definition console_log (l : LogLine) : M unit := fun w => (Ret tt, with_log l w).
Definition alert (msg : string) : M unit := fun w => (Ret tt, with_alert msg w).

(** ** [services/geminiService.ts] *)

(** What the service reads from outside: the two environment variables
    [import.meta.env.VITE_API_KEY] and [process.env.API_KEY], and the
    generative backend behind [ai.models.generateContent], given as what
    the [n]-th call (counting from 0) answers to a request. *)
Record Env : Type := {
  VITE_API_KEY : option string;
  API_KEY : option string;
  backend : nat -> Client -> Request -> BackendResult
}.

(** Whether the environment holds an API key, [!!apiKey] in [getClient]. *)
Definition has_key (env : Env) : bool :=
  Js.truthy_opt (Js.or_undef (VITE_API_KEY env) (API_KEY env)).

Section Service.

Variable env : Env.

Definition getClient : M Client :=
  match Js.or_undef (VITE_API_KEY env) (API_KEY env) with
  | Some key =>
      if negb (Js.truthy key)
      then throw (Error "API Key not found in environment variables")
      else ret {| apiKey := key |}
  | None => throw (Error "API Key not found in environment variables")
  end.

(** [await ai.models.generateContent({ model, contents, config })]. *)
Definition generateContent (ai : Client) (req : Request) : M Response :=
  fun w =>
    match backend env (length (calls w)) ai req with
    | Ok response => (Ret response, with_call (ai, req) w)
    | Failed error => (Throw error, with_call (ai, req) w)
    end.

Definition isRateLimit (error : JsError) : bool :=
  match message error with
  | Some m => Js.includes "429" m
  | None => false
  end
  || Js.strict_eq_num (status error) 429
  || Js.strict_eq_num (code error) 429.

(** The label "Gemini API Error (Model: [modelName]):". *)
Definition api_error_label (modelName : string) : string :=
  "Gemini API Error (Model: " +:+ modelName +:+ "):".

(** The [while (attempt < maxRetries)] loop of [generateContentWithRetry].
    [fuel] bounds the number of iterations; running out of it stands for
    a loop that never ends. *)
Fixpoint retry_loop (fuel : nat) (ai : Client) (req : Request)
    (maxRetries attempt : Z) : M Response :=
  if (attempt <? maxRetries)%Z then
    match fuel with
    | O => never
    | S fuel' =>
        try_catch (generateContent ai req)
          (fun error =>
             if isRateLimit error && (attempt <? maxRetries - 1)%Z then
               let waitTime := (2 ^ attempt * 1000)%Z in
               let* _ := console_log (RetryWarning waitTime (attempt + 1) maxRetries) in
               let* _ := delay waitTime in
               retry_loop fuel' ai req maxRetries (attempt + 1)
             else
               let* _ := console_log (ConsoleError (api_error_label (model req)) error) in
               throw error)
    end
  else throw (Error "Max retries exceeded").

Definition generateContentWithRetry (ai : Client) (modelName : string)
    (contents : Contents) (config : Config) (maxRetries : Z) : M Response :=
  retry_loop (Z.to_nat maxRetries) ai
    {| model := modelName; contents := contents; config := config |}
    maxRetries 0.

(** The default [maxRetries = 3]. *)
Definition defaultMaxRetries : Z := 3.

(** [response.text || fallback]. *)
Definition text_or (response : Response) (fallback : string) : string :=
  Js.or_opt (text response) fallback.

Definition refineIdea (rawInput : string) : M string :=
  let* ai := getClient in
  let* response :=
    generateContentWithRetry ai "gemini-2.0-flash" (RefineIdeaPrompt rawInput)
      {| systemInstruction := Some "You are a Chief Product Officer. Your goal is to clarify and elevate raw ideas into actionable product visions.";
         temperature := Some 7%Z |}
      defaultMaxRetries in
  ret (text_or response "Failed to refine idea.").

(** The part pushed for one research document. *)
Definition research_part (doc : ResearchDocument) : Part :=
  if String.eqb (doc_mimeType doc) "application/pdf"
  then InlineData "application/pdf" (doc_content doc)
  else TextPart ("--- RESEARCH DOCUMENT: " +:+ doc_name doc +:+ " ---" +:+ Js.nl
                 +:+ Js.interpolate (doc_content doc) +:+ Js.nl
                 +:+ "--- END DOCUMENT ---").

Definition generatePRD (idea : string) (research : list ResearchDocument) : M string :=
  let* ai := getClient in
  let parts := map research_part research in
  let* response :=
    generateContentWithRetry ai "gemini-2.0-flash" (PrdParts idea parts)
      {| systemInstruction := Some "You are a world-class Product Manager. You are strict, detailed, and focus on viability and user value.";
         temperature := Some 7%Z |}
      defaultMaxRetries in
  ret (text_or response "Failed to generate PRD.").

Definition generatePlan (prd : string) : M string :=
  let* ai := getClient in
  let* response :=
    generateContentWithRetry ai "gemini-2.0-flash" (PlanPrompt prd)
      {| systemInstruction := Some "You are a Technical Project Manager. Break down complex goals into achievable tasks.";
         temperature := None |}
      defaultMaxRetries in
  ret (text_or response "Failed to generate Plan.").

Definition generateDesignSystem (prd plan : string) : M string :=
  let* ai := getClient in
  let* response :=
    generateContentWithRetry ai "gemini-2.0-flash"
      (DesignPrompt (Js.substring0 3000 prd) (Js.substring0 3000 plan))
      {| systemInstruction := Some "You are a Senior UI/UX Designer. Focus on aesthetics, accessibility, and modern design trends.";
         temperature := None |}
      defaultMaxRetries in
  ret (text_or response "Failed to generate Design.").

Definition generateCodePrompt (projectState : ProjectState) : M string :=
  let* ai := getClient in
  let* response :=
    generateContentWithRetry ai "gemini-2.0-flash"
      (CodePrompt (Js.or (synthesizedIdea projectState) (ideaInput projectState))
                  (designSystemOutput projectState)
                  (roadmapOutput projectState))
      {| systemInstruction := Some "You are a Lead Software Engineer. You write precise, technical specifications for other developers.";
         temperature := None |}
      defaultMaxRetries in
  ret (text_or response "Failed to generate Code Prompt.").

(** The shape the five service functions share: get the client, send
    one request through the retrying transport, return the text or the
    fallback. *)
Definition call_service (modelName : string) (prompt : Contents) (cfg : Config)
    (fallback : string) : M string :=
  let* ai := getClient in
  let* response := generateContentWithRetry ai modelName prompt cfg defaultMaxRetries in
  ret (text_or response fallback).

End Service.

(** ** [App.tsx]: the operations of [ProjectProvider] *)

(** What [await file.text()] does. *)
Inductive TextRead : Type :=
| TextResolved (content : string)
| TextRejected (error : JsError).

(** The event a [FileReader] ends [readAsDataURL] with: [load] (with
    [e.target.result], which may be null) after a complete read, [error]
    when the bytes could not be read, [abort] when the read was cancelled. *)
Inductive ReaderEvent : Type :=
| LoadEvent (result : option string)
| ErrorEvent
| AbortEvent.

(** A browser [File]: its name, its declared media type, and what the two
    ways of reading it produce. *)
Record File : Type := {
  file_name : string;
  file_type : string;
  file_text : TextRead;
  file_readAsDataURL : ReaderEvent
}.

(** [new Promise((resolve, reject) => { reader.onload = ...;
    reader.readAsDataURL(file) })]: only [onload] has a handler, so the
    promise settles on a [load] event and on no other. *)
Definition readPdfAsBase64 (file : File) : M (option string) :=
  match file_readAsDataURL file with
  | LoadEvent (Some result) =>
      if Js.truthy result
      then ret (Js.split_comma result !! 1%nat)
      else throw (Error "Failed to read file")
  | LoadEvent None => throw (Error "Failed to read file")
  | ErrorEvent => never
  | AbortEvent => never
  end.

Definition readText (file : File) : M string :=
  match file_text file with
  | TextResolved content => ret content
  | TextRejected error => throw error
  end.

(** [rand_id] is the value of [Math.random().toString(36).substr(2, 9)]. *)
Definition addResearch (rand_id : string) (file : File) : M unit :=
  let mimeType := file_type file in
  let* content_mime :=
    if String.eqb (file_type file) "application/pdf" then
      let* content := readPdfAsBase64 file in
      ret (content, mimeType)
    else
      let* content := readText file in
      ret (Some content, if negb (Js.truthy mimeType) then "text/plain"%string else mimeType) in
  let newDoc :=
    {| doc_id := rand_id; doc_name := file_name file;
       doc_content := fst content_mime; doc_mimeType := snd content_mime;
       doc_source := upload |} in
  setState (fun prev => set_research (research prev ++ [newDoc]) prev).

Definition updateIdea (idea : string) : M unit :=
  setState (fun prev => set_ideaInput idea prev).

Section Provider.

Variable env : Env.

(** The body of the [try] block of [generateArtifact]; [state] is the
    state captured by the closure, the one rendered when the operation
    was invoked. *)
Definition generateArtifact_try (step : ProjectStep) (state : ProjectState) : M unit :=
  if ProjectStep_eqb step IDEA then
    let* result := refineIdea env (ideaInput state) in
    setState (fun prev => set_synthesizedIdea result prev)
  else if ProjectStep_eqb step PRD then
    let inputIdea := Js.or (synthesizedIdea state) (ideaInput state) in
    let* result := generatePRD env inputIdea (research state) in
    setState (fun prev => set_prdOutput result prev)
  else if ProjectStep_eqb step PLANNING then
    let* result := generatePlan env (prdOutput state) in
    setState (fun prev => set_roadmapOutput result prev)
  else if ProjectStep_eqb step DESIGN then
    let* result := generateDesignSystem env (prdOutput state) (roadmapOutput state) in
    setState (fun prev => set_designSystemOutput result prev)
  else if ProjectStep_eqb step CODE then
    let* result := generateCodePrompt env state in
    setState (fun prev => set_codePromptOutput result prev)
  else ret tt.

Definition generation_failed_alert : string :=
  "Failed to generate content. Please check your API key and try again.".

Definition generateArtifact (step : ProjectStep) : M unit :=
  fun w =>
    let state := state w in
    (let* _ := setState (fun prev => set_isGenerating true prev) in
     try_finally
       (try_catch (generateArtifact_try step state)
          (fun error =>
             let* _ := console_log (ConsoleError "Generation failed:" error) in
             alert generation_failed_alert))
       (setState (fun prev => set_isGenerating false prev))) w.

End Provider.

(** [{ ...initialState, title: state.title }]. *)
Definition resetState (state : ProjectState) : ProjectState :=
  {| project_id := project_id initialState; title := title state;
     currentStep := currentStep initialState; research := research initialState;
     ideaInput := ideaInput initialState;
     synthesizedIdea := synthesizedIdea initialState;
     prdOutput := prdOutput initialState;
     roadmapOutput := roadmapOutput initialState;
     designSystemOutput := designSystemOutput initialState;
     codePromptOutput := codePromptOutput initialState;
     isGenerating := isGenerating initialState |}.

(** [confirmed] is the answer to the [confirm(...)] dialog. *)
Definition resetProject (confirmed : bool) : M unit :=
  fun w =>
    let state := state w in
    (if confirmed then setState (fun _ => resetState state) else ret tt) w.

(** The [disabled] attribute of the button that triggers
    [generateArtifact] on each stage page. *)
Definition PrdPage_disabled (state : ProjectState) : bool :=
  isGenerating state.
Definition PlanningPage_disabled (state : ProjectState) : bool :=
  isGenerating state || negb (Js.truthy (prdOutput state)).
Definition DesignPage_disabled (state : ProjectState) : bool :=
  isGenerating state || negb (Js.truthy (roadmapOutput state)).
Definition CodePage_disabled (state : ProjectState) : bool :=
  isGenerating state || negb (Js.truthy (designSystemOutput state)).

(** The stage dependency table: the output slot each stage is said to
    require.  The planning, design and code pages announce theirs
    ("Prerequisite: Generate PRD first." and the like); the entry of the
    PRD stage is the specification's, no page declares it; the idea stage
    and the research stage require none. *)
Definition prerequisite (step : ProjectStep) : option (ProjectState -> string) :=
  match step with
  | IDEA | RESEARCH => None
  | PRD => Some synthesizedIdea
  | PLANNING => Some prdOutput
  | DESIGN => Some roadmapOutput
  | CODE => Some designSystemOutput
  end.

(** The operations the provider exposes through its context. *)
Inductive Operation : Type :=
| UpdateIdea (idea : string)
| AddResearch (rand_id : string) (file : File)
| GenerateArtifact (step : ProjectStep)
| ResetProject (confirmed : bool).

Definition perform (env : Env) (op : Operation) : M unit :=
  match op with
  | UpdateIdea idea => updateIdea idea
  | AddResearch rand_id file => addResearch rand_id file
  | GenerateArtifact step => generateArtifact env step
  | ResetProject confirmed => resetProject confirmed
  end.

(** The world at mount: [useState(initialState)], nothing sent or shown. *)
Definition initialWorld : World :=
  {| state := initialState; currentProjectId := None;
     calls := []; sleeps := []; console := []; alerts := [] |}.

(** The worlds that sequences of operations lead to. *)
Inductive reachable (env : Env) : World -> Prop :=
| reachable_initial : reachable env initialWorld
| reachable_step w op :
    reachable env w -> reachable env (snd (perform env op w)).

(** ** [services/firebase.ts] *)

(** The Firestore collection [projects], and whether the store can be
    reached: [outage] is the error every request fails with when it
    cannot. *)
Record Firestore : Type := {
  projects : gmap string ProjectState;
  outage : option JsError
}.

(** [await getDoc(doc(db, 'projects', userId))]: the snapshot's data, or
    [None] for a snapshot that does not exist. *)
Definition getDoc (db : Firestore) (userId : string) : JsError + option ProjectState :=
  match outage db with
  | Some error => inl error
  | None => inr (projects db !! userId)
  end.

(** [await setDoc(doc(db, 'projects', userId), data)]. *)
Definition setDoc (db : Firestore) (userId : string) (data : ProjectState)
    : JsError + Firestore :=
  match outage db with
  | Some error => inl error
  | None => inr {| projects := <[userId := data]> (projects db); outage := None |}
  end.

(** [loadProject] returns its result ([null] is [None]) or throws, and
    writes to the console. *)
Definition loadProject (db : Firestore) (userId : string)
    : Outcome (option ProjectState) * list LogLine :=
  match getDoc db userId with
  | inr docSnap =>
      match docSnap with
      | Some data => (Ret (Some data), [])
      | None => (Ret None, [])
      end
  | inl error => (Ret None, [ConsoleError "Error loading project:" error])
  end.

Definition saveProject (db : Firestore) (userId : string) (data : ProjectState)
    : Outcome unit * Firestore * list LogLine :=
  match setDoc db userId data with
  | inr db' => (Ret tt, db', [])
  | inl error => (Throw error, db, [ConsoleError "Error saving project:" error])
  end.

(** ** [App.tsx]: the autosave effect of [ProjectProvider] *)

Module Autosave.

Record ProjectMetadata : Type := {
  meta_id : string;
  meta_title : string;
  updatedAt : Z
}.

(** A [saveProject(user.uid, currentProjectId, state)] call. *)
Record SaveCall : Type := {
  save_uid : string;
  save_project : string;
  save_state : ProjectState
}.

(** The pending [setTimeout] of the effect: when it is due, and the
    values its callback closed over. *)
Record Timeout : Type := {
  due : Z;
  timeout_uid : string;
  timeout_project : string;
  timeout_state : ProjectState
}.

(** The provider with its clock (milliseconds), the timeout the last run
    of the effect holds, and the save calls made so far. *)
Record Provider : Type := {
  state : ProjectState;
  user : option string;                  (* [user.uid] when signed in *)
  currentProjectId : option string;
  projectList : list ProjectMetadata;    (* the [projects] state *)
  now : Z;
  timeoutId : option Timeout;
  saves : list SaveCall
}.

(** The quiet period: [setTimeout(..., 2000)]. *)
Definition quietPeriod : Z := 2000.

(** One run of the effect: the cleanup of the previous run
    ([clearTimeout(timeoutId)]), then, if [user && currentProjectId], a
    new timeout. *)
Definition runEffect (p : Provider) : Provider :=
  let scheduled :=
    match user p, currentProjectId p with
    | Some uid, Some pid =>
        if Js.truthy pid
        then Some {| due := now p + quietPeriod; timeout_uid := uid;
                     timeout_project := pid; timeout_state := state p |}
        else None
    | _, _ => None
    end in
  {| state := state p; user := user p; currentProjectId := currentProjectId p;
     projectList := projectList p; now := now p;
     timeoutId := scheduled; saves := saves p |}.

(** A state mutation: [setState] commits a new state object, and the
    effect, which depends on [state], runs again. *)
Definition mutate (f : ProjectState -> ProjectState) (p : Provider) : Provider :=
  runEffect
    {| state := f (state p); user := user p; currentProjectId := currentProjectId p;
       projectList := projectList p; now := now p;
       timeoutId := timeoutId p; saves := saves p |}.

(** The callback of the timeout [t], run when it is due ([Date.now()] is
    then [due t]). *)
Definition fire (t : Timeout) (p : Provider) : Provider :=
  {| state := state p; user := user p; currentProjectId := currentProjectId p;
     projectList :=
       map (fun m =>
              if String.eqb (meta_id m) (timeout_project t)
              then {| meta_id := meta_id m;
                      meta_title := title (timeout_state t);
                      updatedAt := due t |}
              else m)
           (projectList p);
     now := now p;
     timeoutId := None;
     saves := saves p ++ [{| save_uid := timeout_uid t;
                             save_project := timeout_project t;
                             save_state := timeout_state t |}] |}.

(** [dt] milliseconds pass without a mutation: a timeout that comes due
    in that time runs its callback. *)
Definition elapse (dt : Z) (p : Provider) : Provider :=
  let p' :=
    {| state := state p; user := user p; currentProjectId := currentProjectId p;
       projectList := projectList p; now := now p + dt;
       timeoutId := timeoutId p; saves := saves p |} in
  match timeoutId p with
  | Some t => if (due t <=? now p + dt)%Z then fire t p' else p'
  | None => p'
  end.

(** A burst: each mutation arrives [dt] milliseconds after the one
    before it. *)
Fixpoint burst (ms : list (Z * (ProjectState -> ProjectState))) (p : Provider)
    : Provider :=
  match ms with
  | [] => p
  | (dt, f) :: rest => burst rest (mutate f (elapse dt p))
  end.

(** The state the mutations of a burst lead to. *)
Definition final_state (ms : list (Z * (ProjectState -> ProjectState)))
    (s : ProjectState) : ProjectState :=
  fold_left (fun acc m => snd m acc) ms s.

(** The effect holds a timeout for user [uid] and project [pid] that is
    due one quiet period from now and has closed over the current
    state. *)
Definition armed (uid pid : string) (p : Provider) : Prop :=
  user p = Some uid
  /\ currentProjectId p = Some pid
  /\ timeoutId p = Some {| due := now p + quietPeriod; timeout_uid := uid;
                           timeout_project := pid; timeout_state := state p |}.

End Autosave.

(** The delays [Math.pow(2, attempt) * 1000] of [n] consecutive retries,
    the first of them made at [attempt]. *)
Definition backoff (attempt : Z) (n : nat) : list Z :=
  map (fun k => (2 ^ (attempt + Z.of_nat k) * 1000)%Z) (seq 0 n).

(** ** Scenarios used to run the model *)

Module Scenario.

Definition ai : Client := {| apiKey := "test-key" |}.
Definition cfg : Config := {| systemInstruction := None; temperature := None |}.

Definition rate_limited : JsError :=
  {| message := Some "429 Resource Exhausted"; status := Some 429%Z; code := None |}.
Definition unavailable : JsError :=
  {| message := Some "503 Service Unavailable"; status := Some 503%Z; code := None |}.
Definition unauthorized : JsError :=
  {| message := Some "401 API key not valid"; status := Some 401%Z; code := None |}.

Definition answer (s : string) : Response := {| text := Some s |}.

Definition env_with (b : nat -> BackendResult) : Env :=
  {| VITE_API_KEY := Some "test-key"%string; API_KEY := None;
     backend := fun n _ _ => b n |}.

(** Rate-limited twice, then an answer. *)
Definition twice_limited : Env :=
  env_with (fun n => if (n <? 2)%nat then Failed rate_limited else Ok (answer "third")).
(** Rate-limited on every call. *)
Definition always_limited : Env := env_with (fun _ => Failed rate_limited).
(** Unavailable once, then an answer. *)
Definition once_unavailable : Env :=
  env_with (fun n => if (n <? 1)%nat then Failed unavailable else Ok (answer "second")).
(** An answer to every call. *)
Definition always_answers : Env := env_with (fun _ => Ok (answer "generated")).
(** Rejected for its key on every call. *)
Definition always_unauthorized : Env := env_with (fun _ => Failed unauthorized).

(** A PDF that is read to the end. *)
Definition pdf_file : File :=
  {| file_name := "report.pdf"; file_type := "application/pdf";
     file_text := TextResolved "%PDF-1.7 text decoding";
     file_readAsDataURL := LoadEvent (Some "data:application/pdf;base64,JVBERi0xLjc="%string) |}.
(** A PDF whose bytes cannot be read: the reader ends with [error]. *)
Definition unreadable_pdf : File :=
  {| file_name := "broken.pdf"; file_type := "application/pdf";
     file_text := TextRejected (Error "NotReadableError");
     file_readAsDataURL := ErrorEvent |}.
(** A text file whose bytes cannot be read. *)
Definition unreadable_text : File :=
  {| file_name := "notes.txt"; file_type := "text/plain";
     file_text := TextRejected (Error "NotReadableError");
     file_readAsDataURL := ErrorEvent |}.
(** An image, a binary media type other than PDF. *)
Definition png_file : File :=
  {| file_name := "chart.png"; file_type := "image/png";
     file_text := TextResolved "PNG bytes decoded as text";
     file_readAsDataURL := LoadEvent (Some "data:image/png;base64,iVBORw0KGgo="%string) |}.

Definition stored : ProjectState := set_prdOutput "stored prd" initialState.
(** A store that holds a project for user [u1] and cannot be reached. *)
Definition unreachable_store : Firestore :=
  {| projects := {[ "u1"%string := stored ]}; outage := Some unavailable |}.

(** A signed-in provider with a project selected and nothing pending. *)
Definition provider : Autosave.Provider :=
  {| Autosave.state := initialState; Autosave.user := Some "u1"%string;
     Autosave.currentProjectId := Some "p1"%string; Autosave.projectList := [];
     Autosave.now := 0; Autosave.timeoutId := None; Autosave.saves := [] |}.
(** The same provider before sign-in. *)
Definition signed_out : Autosave.Provider :=
  {| Autosave.state := initialState; Autosave.user := None;
     Autosave.currentProjectId := None; Autosave.projectList := [];
     Autosave.now := 0; Autosave.timeoutId := None; Autosave.saves := [] |}.
(** Three keystrokes, 300 ms and 1999 ms apart. *)
Definition keystrokes : list (Z * (ProjectState -> ProjectState)) :=
  [(300%Z, set_ideaInput "ab"); (1999%Z, set_ideaInput "abc")].

End Scenario.

(** ** Further definitions: the rest of the service, the first version of
    the service, and the project lifecycle of the provider *)

(** [parts.join(sep)]. *)
Fixpoint join (sep : string) (parts : list string) : string :=
  match parts with
  | [] => EmptyString
  | [part] => part
  | part :: rest => part +:+ sep +:+ join sep rest
  end.

(** [d.mimeType.startsWith('text')]. *)
Definition is_text_doc (d : ResearchDocument) : bool :=
  String.prefix "text" (doc_mimeType d).

Definition source_block (d : ResearchDocument) : string :=
  "--- SOURCE: " +:+ doc_name d +:+ " ---" +:+ Js.nl
  +:+ Js.interpolate (doc_content d) +:+ Js.nl +:+ "--- END SOURCE ---".

Definition formatResearchContext (docs : list ResearchDocument) : string :=
  if Nat.eqb (length docs) 0 then "No specific research documents provided."%string
  else join (Js.nl +:+ Js.nl) (map source_block (List.filter is_text_doc docs)).

(** The key [getClient] ends up with, if it finds one. *)
Definition configured_key (env : Env) : option string :=
  match Js.or_undef (VITE_API_KEY env) (API_KEY env) with
  | Some key => if Js.truthy key then Some key else None
  | None => None
  end.

(** The error [getClient] throws. *)
Definition key_missing : JsError := Error "API Key not found in environment variables".

(** The request [generateContentWithRetry] builds from its arguments. *)
Definition request_of (modelName : string) (prompt : Contents) (cfg : Config) : Request :=
  {| model := modelName; contents := prompt; config := cfg |}.

(** The slot the branch of [generateArtifact] for [step] writes; the
    research stage has no branch. *)
Definition write_slot (step : ProjectStep) (result : string) (s : ProjectState)
    : ProjectState :=
  match step with
  | IDEA => set_synthesizedIdea result s
  | RESEARCH => s
  | PRD => set_prdOutput result s
  | PLANNING => set_roadmapOutput result s
  | DESIGN => set_designSystemOutput result s
  | CODE => set_codePromptOutput result s
  end.

Definition read_slot (step : ProjectStep) (s : ProjectState) : string :=
  match step with
  | IDEA => synthesizedIdea s
  | RESEARCH => EmptyString
  | PRD => prdOutput s
  | PLANNING => roadmapOutput s
  | DESIGN => designSystemOutput s
  | CODE => codePromptOutput s
  end.

(** What the branch of [generateArtifact] for [step] hands to the service:
    the prompt, the configuration and the fallback text of the function it
    calls, from the state [st] the closure captured. *)
Definition stage_request (step : ProjectStep) (st : ProjectState)
    : option (Contents * Config * string) :=
  match step with
  | IDEA =>
      Some (RefineIdeaPrompt (ideaInput st),
            {| systemInstruction := Some "You are a Chief Product Officer. Your goal is to clarify and elevate raw ideas into actionable product visions.";
               temperature := Some 7%Z |},
            "Failed to refine idea."%string)
  | RESEARCH => None
  | PRD =>
      Some (PrdParts (Js.or (synthesizedIdea st) (ideaInput st))
              (map research_part (research st)),
            {| systemInstruction := Some "You are a world-class Product Manager. You are strict, detailed, and focus on viability and user value.";
               temperature := Some 7%Z |},
            "Failed to generate PRD."%string)
  | PLANNING =>
      Some (PlanPrompt (prdOutput st),
            {| systemInstruction := Some "You are a Technical Project Manager. Break down complex goals into achievable tasks.";
               temperature := None |},
            "Failed to generate Plan."%string)
  | DESIGN =>
      Some (DesignPrompt (Js.substring0 3000 (prdOutput st))
              (Js.substring0 3000 (roadmapOutput st)),
            {| systemInstruction := Some "You are a Senior UI/UX Designer. Focus on aesthetics, accessibility, and modern design trends.";
               temperature := None |},
            "Failed to generate Design."%string)
  | CODE =>
      Some (CodePrompt (Js.or (synthesizedIdea st) (ideaInput st))
              (designSystemOutput st) (roadmapOutput st),
            {| systemInstruction := Some "You are a Lead Software Engineer. You write precise, technical specifications for other developers.";
               temperature := None |},
            "Failed to generate Code Prompt."%string)
  end.

(** [{ ...data, id: projectId }]. *)
Definition set_project_id (v : option string) (p : ProjectState) : ProjectState :=
  {| project_id := v; title := title p; currentStep := currentStep p;
     research := research p; ideaInput := ideaInput p;
     synthesizedIdea := synthesizedIdea p; prdOutput := prdOutput p;
     roadmapOutput := roadmapOutput p; designSystemOutput := designSystemOutput p;
     codePromptOutput := codePromptOutput p; isGenerating := isGenerating p |}.

(** [{ ...initialState, title: t }]. *)
Definition set_title (v : string) (p : ProjectState) : ProjectState :=
  {| project_id := project_id p; title := v; currentStep := currentStep p;
     research := research p; ideaInput := ideaInput p;
     synthesizedIdea := synthesizedIdea p; prdOutput := prdOutput p;
     roadmapOutput := roadmapOutput p; designSystemOutput := designSystemOutput p;
     codePromptOutput := codePromptOutput p; isGenerating := isGenerating p |}.

(** What [response.text || fallback] evaluates to, read off the answer's
    text: the text when there is one and it is not empty, the fallback
    when the text is missing or empty. *)
Definition text_or_fallback (answer : option string) (fallback result : string) : Prop :=
  (exists t, answer = Some t /\ t <> ""%string /\ result = t)
  \/ ((answer = None \/ answer = Some ""%string) /\ result = fallback).

(** A result that a service function returned from world [w]: it is not
    empty, and it is the text, or else the fallback, of a response that the
    backend gave to one of the at most three calls of the function. *)
Definition service_returned (env : Env) (w : World) (fallback result : string) : Prop :=
  result <> ""%string
  /\ exists (k : nat) ai req response,
       (k < 3)%nat
       /\ backend env (length (calls w) + k) ai req = Ok response
       /\ text_or_fallback (text response) fallback result.


(** *** The first version of [services/geminiService.ts]: one call, no
    retry *)

Module V1.

Section Service.

Variable env : Env.

(** This version reads [process.env.API_KEY] only. *)
Definition getClient : M Client :=
  match API_KEY env with
  | Some key =>
      if negb (Js.truthy key)
      then throw (Error "API Key not found in environment variables")
      else ret {| apiKey := key |}
  | None => throw (Error "API Key not found in environment variables")
  end.

Definition refineIdea (rawInput : string) : M string :=
  let* ai := getClient in
  let* response :=
    generateContent env ai
      {| model := "gemini-2.5-flash"; contents := RefineIdeaPrompt rawInput;
         config :=
           {| systemInstruction := Some "You are a Chief Product Officer. Your goal is to clarify and elevate raw ideas into actionable product visions.";
              temperature := Some 7%Z |} |} in
  ret (text_or response "Failed to refine idea.").

Definition generatePRD (idea : string) (research : list ResearchDocument) : M string :=
  let* ai := getClient in
  let parts := map research_part research in
  let* response :=
    generateContent env ai
      {| model := "gemini-2.5-flash"; contents := PrdParts idea parts;
         config :=
           {| systemInstruction := Some "You are a world-class Product Manager. You are strict, detailed, and focus on viability and user value.";
              temperature := Some 7%Z |} |} in
  ret (text_or response "Failed to generate PRD.").

Definition generatePlan (prd : string) : M string :=
  let* ai := getClient in
  let* response :=
    generateContent env ai
      {| model := "gemini-3-pro-preview"; contents := PlanPrompt prd;
         config :=
           {| systemInstruction := Some "You are a Technical Project Manager. Break down complex goals into achievable tasks.";
              temperature := None |} |} in
  ret (text_or response "Failed to generate Plan.").

Definition generateDesignSystem (prd plan : string) : M string :=
  let* ai := getClient in
  let* response :=
    generateContent env ai
      {| model := "gemini-2.5-flash";
         contents := DesignPrompt (Js.substring0 3000 prd) (Js.substring0 3000 plan);
         config :=
           {| systemInstruction := Some "You are a Senior UI/UX Designer. Focus on aesthetics, accessibility, and modern design trends.";
              temperature := None |} |} in
  ret (text_or response "Failed to generate Design.").

Definition generateCodePrompt (projectState : ProjectState) : M string :=
  let* ai := getClient in
  let* response :=
    generateContent env ai
      {| model := "gemini-2.5-flash";
         contents :=
           CodePrompt (Js.or (synthesizedIdea projectState) (ideaInput projectState))
                      (designSystemOutput projectState)
                      (roadmapOutput projectState);
         config :=
           {| systemInstruction := Some "You are a Lead Software Engineer. You write precise, technical specifications for other developers.";
              temperature := None |} |} in
  ret (text_or response "Failed to generate Code Prompt.").

(** The shape the five functions share. *)
Definition call_once (req : Request) (fallback : string) : M string :=
  let* ai := getClient in
  let* response := generateContent env ai req in
  ret (text_or response fallback).

End Service.

End V1.

(** *** The autosave effect: the states a run of mutations passes through *)

Fixpoint states_after (ms : list (Z * (ProjectState -> ProjectState)))
    (s : ProjectState) : list ProjectState :=
  match ms with
  | [] => []
  | (_, f) :: rest => f s :: states_after rest (f s)
  end.

Definition save_of (uid pid : string) (s : ProjectState) : Autosave.SaveCall :=
  {| Autosave.save_uid := uid; Autosave.save_project := pid; Autosave.save_state := s |}.

(** *** [App.tsx]: loading and creating projects *)

Module Lifecycle.

(** The functions of [services/firebase] that the provider calls with a
    project identifier are not among the sources; what they answer is a
    parameter.  [is_Error] is [error instanceof Error]. *)
Record Firebase : Type := {
  loadProject : string -> string -> Outcome (option ProjectState);
  createProject : string -> ProjectState -> Outcome string;
  getUserProjects : string -> Outcome (list Autosave.ProjectMetadata);
  is_Error : JsError -> bool
}.

(** The React state of [ProjectProvider] and what it shows. *)
Record Shell : Type := {
  state : ProjectState;
  currentProjectId : option string;
  user : option string;                         (* [user.uid] *)
  projectList : list Autosave.ProjectMetadata;  (* the [projects] state *)
  showProjectDialog : bool;
  isLoadingProjects : bool;
  alerts : list string
}.

Definition setIsLoadingProjects (b : bool) (sh : Shell) : Shell :=
  {| state := state sh; currentProjectId := currentProjectId sh; user := user sh;
     projectList := projectList sh; showProjectDialog := showProjectDialog sh;
     isLoadingProjects := b; alerts := alerts sh |}.

(** [setState(s); setCurrentProjectId(pid); setShowProjectDialog(false)]. *)
Definition select (s : ProjectState) (pid : string) (sh : Shell) : Shell :=
  {| state := s; currentProjectId := Some pid; user := user sh;
     projectList := projectList sh; showProjectDialog := false;
     isLoadingProjects := isLoadingProjects sh; alerts := alerts sh |}.

Definition setProjects (l : list Autosave.ProjectMetadata) (sh : Shell) : Shell :=
  {| state := state sh; currentProjectId := currentProjectId sh; user := user sh;
     projectList := l; showProjectDialog := showProjectDialog sh;
     isLoadingProjects := isLoadingProjects sh; alerts := alerts sh |}.

Definition show_alert (msg : string) (sh : Shell) : Shell :=
  {| state := state sh; currentProjectId := currentProjectId sh; user := user sh;
     projectList := projectList sh; showProjectDialog := showProjectDialog sh;
     isLoadingProjects := isLoadingProjects sh; alerts := alerts sh ++ [msg] |}.

Section Provider.

Variable fb : Firebase.

Definition loadProjectDetails (projectId : string) (sh : Shell) : Outcome unit * Shell :=
  match user sh with
  | None => (Ret tt, sh)
  | Some uid =>
      let sh1 := setIsLoadingProjects true sh in
      match loadProject fb uid projectId with
      | Ret (Some data) =>
          (Ret tt,
           setIsLoadingProjects false
             (select (set_project_id (Some projectId) data) projectId sh1))
      | Ret None => (Ret tt, setIsLoadingProjects false sh1)
      | Throw e => (Throw e, sh1)
      | Pending => (Pending, sh1)
      end
  end.

(** ["New Project " + (projects.length + 1)]. *)
Definition new_project_title (sh : Shell) : string :=
  "New Project " +:+ NilZero.string_of_uint (Nat.to_uint (length (projectList sh) + 1)).

(** [error instanceof Error ? error.message : "Failed to create project"];
    an [alert] shows an absent message as the text "undefined". *)
Definition create_failure_message (error : JsError) : string :=
  if is_Error fb error then Js.interpolate (message error)
  else "Failed to create project".

(** The [try] block of [createNewProject], from the state in which the
    loading flag is already set. *)
Definition createNewProject_try (uid : string) (sh1 : Shell) : Outcome unit * Shell :=
  let newProject := set_title (new_project_title sh1) initialState in
  match createProject fb uid newProject with
  | Ret newId =>
      match getUserProjects fb uid with
      | Ret list =>
          (Ret tt,
           select (set_project_id (Some newId) newProject) newId (setProjects list sh1))
      | Throw e => (Throw e, sh1)
      | Pending => (Pending, sh1)
      end
  | Throw e => (Throw e, sh1)
  | Pending => (Pending, sh1)
  end.

Definition createNewProject (sh : Shell) : Outcome unit * Shell :=
  match user sh with
  | None => (Ret tt, sh)
  | Some uid =>
      match createNewProject_try uid (setIsLoadingProjects true sh) with
      | (Ret _, sh2) => (Ret tt, setIsLoadingProjects false sh2)
      | (Throw e, sh2) =>
          (Ret tt, setIsLoadingProjects false (show_alert (create_failure_message e) sh2))
      | (Pending, sh2) => (Pending, sh2)
      end
  end.

End Provider.

End Lifecycle.

(** *** Further scenarios *)

Module Cases.

(** A backend that answers every call with a response without text. *)
Definition answers_nothing : Env :=
  Scenario.env_with (fun _ => Ok {| text := None |}).
(** No key in the environment. *)
Definition no_key : Env :=
  {| VITE_API_KEY := None; API_KEY := Some ""%string;
     backend := fun _ _ _ => Ok (Scenario.answer "never asked") |}.
(** Only [process.env.API_KEY], rate-limited on every call. *)
Definition v1_limited : Env :=
  {| VITE_API_KEY := None; API_KEY := Some "test-key"%string;
     backend := fun _ _ _ => Failed Scenario.rate_limited |}.

(** A PDF whose read ends with a [load] event and no result. *)
Definition empty_read_pdf : File :=
  {| file_name := "empty.pdf"; file_type := "application/pdf";
     file_text := TextResolved ""; file_readAsDataURL := LoadEvent None |}.
(** A PDF whose result is not a data URL. *)
Definition odd_pdf : File :=
  {| file_name := "odd.pdf"; file_type := "application/pdf";
     file_text := TextResolved "";
     file_readAsDataURL := LoadEvent (Some "not a data url"%string) |}.
(** A markdown file without a declared media type. *)
Definition notes_file : File :=
  {| file_name := "notes.md"; file_type := "";
     file_text := TextResolved "# Notes"; file_readAsDataURL := ErrorEvent |}.

Definition pdf_doc : ResearchDocument :=
  {| doc_id := "d1"; doc_name := "report.pdf"; doc_content := Some "JVBERi0="%string;
     doc_mimeType := "application/pdf"; doc_source := upload |}.
Definition text_doc : ResearchDocument :=
  {| doc_id := "d2"; doc_name := "notes.txt"; doc_content := Some "hello"%string;
     doc_mimeType := "text/plain"; doc_source := upload |}.

(** A reachable store holding nothing. *)
Definition empty_store : Firestore := {| projects := ∅; outage := None |}.

(** Two mutations, each a quiet period or more after the one before. *)
Definition slow_edits : list (Z * (ProjectState -> ProjectState)) :=
  [(2000%Z, set_ideaInput "ab"); (5000%Z, set_ideaInput "abc")].

Definition listed : list Autosave.ProjectMetadata :=
  [ {| Autosave.meta_id := "p0"; Autosave.meta_title := "Other"; Autosave.updatedAt := 1 |};
    {| Autosave.meta_id := "p1"; Autosave.meta_title := "Old title"; Autosave.updatedAt := 2 |} ].
(** Signed in, but no project selected yet. *)
Definition no_project : Autosave.Provider :=
  {| Autosave.state := initialState; Autosave.user := Some "u1"%string;
     Autosave.currentProjectId := None; Autosave.projectList := listed;
     Autosave.now := 0; Autosave.timeoutId := None; Autosave.saves := [] |}.
Definition provider_with_list : Autosave.Provider :=
  {| Autosave.state := initialState; Autosave.user := Some "u1"%string;
     Autosave.currentProjectId := Some "p1"%string; Autosave.projectList := listed;
     Autosave.now := 0; Autosave.timeoutId := None; Autosave.saves := [] |}.

Definition shell : Lifecycle.Shell :=
  {| Lifecycle.state := set_ideaInput "draft" initialState;
     Lifecycle.currentProjectId := Some "p1"%string;
     Lifecycle.user := Some "u1"%string; Lifecycle.projectList := listed;
     Lifecycle.showProjectDialog := true; Lifecycle.isLoadingProjects := false;
     Lifecycle.alerts := [] |}.
(** A store that finds project [p2] and no other, and creates [p9]. *)
Definition firebase : Lifecycle.Firebase :=
  {| Lifecycle.loadProject := fun _ pid =>
       if String.eqb pid "p2" then Ret (Some Scenario.stored) else Ret None;
     Lifecycle.createProject := fun _ _ => Ret "p9"%string;
     Lifecycle.getUserProjects := fun _ => Ret listed;
     Lifecycle.is_Error := fun _ => true |}.
(** A store in which nothing can be created. *)
Definition failing_firebase : Lifecycle.Firebase :=
  {| Lifecycle.loadProject := fun _ _ => Ret None;
     Lifecycle.createProject := fun _ _ => Throw (Error "permission-denied");
     Lifecycle.getUserProjects := fun _ => Ret listed;
     Lifecycle.is_Error := fun _ => true |}.

End Cases.

(** * Theorems *)

(** ** The retry-wrapped transport *)

Section TransportFacts.

Variable env : Env.
Variables (ai : Client) (req : Request).

Lemma with_call_length c w : length (calls (with_call c w)) = S (length (calls w)).
Proof. unfold with_call; simpl. rewrite length_app; simpl; lia. Qed.

(** A rate-limit failure before the last attempt: warn, wait
    [2^attempt] seconds, go round again. *)
Lemma retry_loop_retries fuel maxRetries attempt w error :
  (attempt < maxRetries - 1)%Z ->
  backend env (length (calls w)) ai req = Failed error ->
  isRateLimit error = true ->
  retry_loop env (S fuel) ai req maxRetries attempt w =
  retry_loop env fuel ai req maxRetries (attempt + 1)
    (with_sleep (2 ^ attempt * 1000)
       (with_log (RetryWarning (2 ^ attempt * 1000) (attempt + 1) maxRetries)
          (with_call (ai, req) w))).
Proof.
  intros Hlt Hb Hrl. simpl.
  assert (Ha : (attempt <? maxRetries)%Z = true) by (apply Z.ltb_lt; lia).
  assert (Hb' : (attempt <? maxRetries - 1)%Z = true) by (apply Z.ltb_lt; lia).
  rewrite Ha. unfold try_catch, generateContent. rewrite Hb, Hrl, Hb'. reflexivity.
Qed.

(** Any failure on the last attempt, and any failure that is not a rate
    limit: log and rethrow the same error. *)
Lemma retry_loop_rethrows fuel maxRetries attempt w error :
  (attempt < maxRetries)%Z ->
  backend env (length (calls w)) ai req = Failed error ->
  isRateLimit error = false \/ (maxRetries - 1 <= attempt)%Z ->
  retry_loop env (S fuel) ai req maxRetries attempt w =
  (Throw error,
   with_log (ConsoleError (api_error_label (model req)) error) (with_call (ai, req) w)).
Proof.
  intros Hlt Hb Hwhy. simpl.
  assert (Ha : (attempt <? maxRetries)%Z = true) by (apply Z.ltb_lt; lia).
  rewrite Ha. unfold try_catch, generateContent. rewrite Hb.
  assert (Hc : isRateLimit error && (attempt <? maxRetries - 1)%Z = false).
  { destruct Hwhy as [-> | Hge]; [reflexivity |].
    apply andb_false_iff; right. apply Z.ltb_ge; lia. }
  rewrite Hc. reflexivity.
Qed.

(** A successful call returns its response at once. *)
Lemma retry_loop_returns fuel maxRetries attempt w response :
  (attempt < maxRetries)%Z ->
  backend env (length (calls w)) ai req = Ok response ->
  retry_loop env (S fuel) ai req maxRetries attempt w =
  (Ret response, with_call (ai, req) w).
Proof.
  intros Hlt Hb. simpl.
  assert (Ha : (attempt <? maxRetries)%Z = true) by (apply Z.ltb_lt; lia).
  rewrite Ha. unfold try_catch, generateContent. rewrite Hb. reflexivity.
Qed.

Lemma backoff_S attempt n :
  backoff attempt (S n) = (2 ^ attempt * 1000)%Z :: backoff (attempt + 1) n.
Proof.
  unfold backoff. simpl. rewrite Z.add_0_r. f_equal.
  rewrite <- seq_shift, map_map. apply map_ext. intros k.
  do 2 f_equal. lia.
Qed.

(** With every remaining call rate-limited, the loop uses up its
    attempts and rethrows the error of the last call. *)
Lemma retry_loop_exhausts n :
  forall fuel attempt maxRetries w (err : nat -> JsError),
    (S n <= fuel)%nat ->
    maxRetries = (attempt + Z.of_nat (S n))%Z ->
    (forall k, (k <= n)%nat ->
       backend env (length (calls w) + k) ai req = Failed (err k)
       /\ isRateLimit (err k) = true) ->
    let r := retry_loop env fuel ai req maxRetries attempt w in
    fst r = Throw (err n)
    /\ calls (snd r) = calls w ++ replicate (S n) (ai, req)
    /\ sleeps (snd r) = sleeps w ++ backoff attempt n
    /\ state (snd r) = state w
    /\ alerts (snd r) = alerts w.
Proof.
  induction n as [| n IH]; intros fuel attempt maxRetries w err Hfuel Hmax Hall r.
  - destruct fuel as [| fuel]; [lia |]. subst r.
    destruct (Hall 0%nat) as [Hb _]; [lia |]. rewrite Nat.add_0_r in Hb.
    rewrite (retry_loop_rethrows _ _ _ _ (err 0%nat)); [| lia | exact Hb | right; lia].
    simpl. rewrite app_nil_r. auto.
  - destruct fuel as [| fuel]; [lia |]. subst r.
    destruct (Hall 0%nat) as [Hb Hrl]; [lia |]. rewrite Nat.add_0_r in Hb.
    rewrite (retry_loop_retries _ _ _ _ (err 0%nat)); [| lia | exact Hb | exact Hrl].
    set (w1 := with_sleep _ _).
    specialize (IH fuel (attempt + 1)%Z maxRetries w1 (fun k => err (S k))).
    destruct IH as (Hr & Hc & Hs & Hst & Hal); [lia | lia | |].
    { intros k Hk. subst w1. simpl. rewrite length_app. simpl.
      replace (length (calls w) + 1 + k)%nat with (length (calls w) + S k)%nat by lia.
      apply Hall. lia. }
    rewrite Hr, Hc, Hs. subst w1. simpl.
    rewrite backoff_S, <- !app_assoc. simpl. auto.
Qed.

End TransportFacts.

Section TransportClaims.

Variable env : Env.
Variables (ai : Client) (modelName : string) (prompt : Contents) (cfg : Config).

Let req : Request := {| model := modelName; contents := prompt; config := cfg |}.

(** The loop always ends: with the fuel [generateContentWithRetry] gives
    it, the promise settles. *)
Lemma retry_loop_settles maxRetries fuel :
  forall attempt w,
    (Z.to_nat (maxRetries - attempt) <= fuel)%nat ->
    fst (retry_loop env fuel ai req maxRetries attempt w) <> Pending.
Proof.
  induction fuel as [| fuel IH]; intros attempt w Hfuel.
  - simpl. destruct (attempt <? maxRetries)%Z eqn:Ha; [| discriminate].
    apply Z.ltb_lt in Ha. lia.
  - simpl. destruct (attempt <? maxRetries)%Z eqn:Ha; [| discriminate].
    unfold try_catch, generateContent.
    destruct (backend env (length (calls w)) ai req) as [response | error];
      [discriminate |].
    destruct (isRateLimit error && (attempt <? maxRetries - 1)%Z); [| discriminate].
    apply IH. apply Z.ltb_lt in Ha. lia.
Qed.

Lemma generateContentWithRetry_settles maxRetries w :
  fst (generateContentWithRetry env ai modelName prompt cfg maxRetries w)
  <> Pending.
Proof.
  unfold generateContentWithRetry. apply retry_loop_settles.
  rewrite Z.sub_0_r. lia.
Qed.

(** Two rate-limit failures and then an answer: three calls, waits of
    1000 ms and 2000 ms, and the third call's response. *)
Lemma retry_twice_then_success w e0 e1 response :
  backend env (length (calls w)) ai req = Failed e0 -> isRateLimit e0 = true ->
  backend env (length (calls w) + 1) ai req = Failed e1 -> isRateLimit e1 = true ->
  backend env (length (calls w) + 2) ai req = Ok response ->
  let r := generateContentWithRetry env ai modelName prompt cfg 3 w in
  fst r = Ret response
  /\ calls (snd r) = calls w ++ [(ai, req); (ai, req); (ai, req)]
  /\ sleeps (snd r) = sleeps w ++ [1000; 2000]%Z.
Proof.
  intros H0 R0 H1 R1 H2 r. subst r. unfold generateContentWithRetry.
  change (Z.to_nat 3) with 3%nat. fold req.
  rewrite (retry_loop_retries env ai req _ _ _ _ e0); [| lia | exact H0 | exact R0].
  rewrite (retry_loop_retries env ai req _ _ _ _ e1); [| lia | | exact R1].
  2:{ simpl. rewrite length_app. exact H1. }
  rewrite (retry_loop_returns env ai req _ _ _ _ response); [| lia |].
  2:{ simpl. rewrite !length_app. simpl.
      replace (length (calls w) + 1 + 1)%nat with (length (calls w) + 2)%nat by lia.
      exact H2. }
  simpl. rewrite <- !app_assoc. simpl. auto.
Qed.

(** A failure that is not a rate limit is rethrown after a single call. *)
Lemma non_retryable_propagates maxRetries w error :
  (1 <= maxRetries)%Z ->
  backend env (length (calls w)) ai req = Failed error ->
  isRateLimit error = false ->
  generateContentWithRetry env ai modelName prompt cfg maxRetries w =
  (Throw error,
   with_log (ConsoleError (api_error_label (model req)) error) (with_call (ai, req) w)).
Proof.
  intros Hmax Hb Hrl. unfold generateContentWithRetry. fold req.
  destruct (Z.to_nat maxRetries) as [| fuel] eqn:Hf; [lia |].
  apply retry_loop_rethrows; [lia | exact Hb | left; exact Hrl].
Qed.

(** Without a single attempt allowed, the loop is skipped and the error
    after it is thrown. *)
Lemma no_attempt_max_retries_exceeded maxRetries w :
  (maxRetries <= 0)%Z ->
  generateContentWithRetry env ai modelName prompt cfg maxRetries w =
  (Throw (Error "Max retries exceeded"), w).
Proof.
  intros Hmax. unfold generateContentWithRetry.
  assert (Ha : (0 <? maxRetries)%Z = false) by (apply Z.ltb_ge; lia).
  destruct (Z.to_nat maxRetries); simpl; rewrite Ha; reflexivity.
Qed.

(** C4, as amended: when every call is answered with a rate-limit
    failure and at least one attempt is allowed, the transport makes
    exactly [maxRetries] calls, waits 1 s, 2 s, ... between them, and then
    rethrows the failure of the last call itself. *)
Theorem C4_exhaustion_rethrows_last_failure maxRetries w (err : nat -> JsError) :
  (1 <= maxRetries)%Z ->
  (forall k, (k < Z.to_nat maxRetries)%nat ->
     backend env (length (calls w) + k) ai req = Failed (err k)
     /\ isRateLimit (err k) = true) ->
  let r := generateContentWithRetry env ai modelName prompt cfg maxRetries w in
  fst r = Throw (err (Z.to_nat maxRetries - 1)%nat)
  /\ calls (snd r) = calls w ++ replicate (Z.to_nat maxRetries) (ai, req)
  /\ sleeps (snd r) = sleeps w ++ backoff 0 (Z.to_nat maxRetries - 1).
Proof.
  intros Hmax Hall r. subst r. unfold generateContentWithRetry. fold req.
  destruct (Z.to_nat maxRetries) as [| n] eqn:Hn; [lia |].
  replace (S n - 1)%nat with n by lia.
  destruct (retry_loop_exhausts env ai req n (S n) 0%Z maxRetries w err)
    as (Hr & Hc & Hs & _); [lia | lia | | auto].
  intros k Hk. apply Hall. lia.
Qed.

End TransportClaims.

Lemma C4_exhaustion_witness :
  let w := initialWorld in
  let r := generateContentWithRetry Scenario.always_limited Scenario.ai
             "gemini-2.0-flash" (PlanPrompt "prd") Scenario.cfg 3 w in
  fst r = Throw Scenario.rate_limited
  /\ calls (snd r) =
     calls w ++ replicate 3
       (Scenario.ai, {| model := "gemini-2.0-flash"; contents := PlanPrompt "prd";
                        config := Scenario.cfg |})
  /\ sleeps (snd r) = sleeps w ++ backoff 0 2.
Proof.
  apply (C4_exhaustion_rethrows_last_failure Scenario.always_limited Scenario.ai
           "gemini-2.0-flash" (PlanPrompt "prd") Scenario.cfg 3 initialWorld
           (fun _ => Scenario.rate_limited)).
  - lia.
  - intros k _. split; reflexivity.
Defined.

(** C4 as stated fails: with every call rate-limited and three attempts,
    three calls are made, but the error raised is the backend's own
    rate-limit failure, not the error of the exhausted budget. *)
Lemma C4_counterexample :
  let r := generateContentWithRetry Scenario.always_limited Scenario.ai
             "gemini-2.0-flash" (PlanPrompt "prd") Scenario.cfg 3 initialWorld in
  length (calls (snd r)) = 3%nat
  /\ fst r = Throw Scenario.rate_limited
  /\ fst r <> Throw (Error "Max retries exceeded").
Proof. vm_compute. repeat split. discriminate. Qed.

(** C3: a service-unavailable failure (503) is not retried.  Answered 503
    once, the transport makes one call, waits for nothing and rethrows the
    503, although the second call would have been answered. *)
Theorem C3_service_unavailable_not_retried :
  let r := generateContentWithRetry Scenario.once_unavailable Scenario.ai
             "gemini-2.0-flash" (PlanPrompt "prd") Scenario.cfg 3 initialWorld in
  isRateLimit Scenario.unavailable = false
  /\ fst r = Throw Scenario.unavailable
  /\ length (calls (snd r)) = 1%nat
  /\ sleeps (snd r) = []
  /\ backend Scenario.once_unavailable 1 Scenario.ai
       {| model := "gemini-2.0-flash"; contents := PlanPrompt "prd";
          config := Scenario.cfg |} = Ok (Scenario.answer "second").
Proof. vm_compute. repeat split. Qed.

(** With three attempts the waits are 1 s and 2 s; the third wait of the
    source's comment (4 s) needs a fourth attempt. *)
Example backoff_of_three_attempts : backoff 0 2 = [1000; 2000]%Z.
Proof. reflexivity. Qed.

(** Two rate limits and then the answer, run. *)
Example retry_twice_then_success_run :
  let r := generateContentWithRetry Scenario.twice_limited Scenario.ai
             "gemini-2.0-flash" (PlanPrompt "prd") Scenario.cfg 3 initialWorld in
  fst r = Ret (Scenario.answer "third")
  /\ length (calls (snd r)) = 3%nat
  /\ sleeps (snd r) = [1000; 2000]%Z.
Proof. vm_compute. repeat split. Qed.

(** ** The stage orchestrator *)

(** What a computation that only talks to the backend leaves behind: the
    React state and the alerts as they were, the call log extended. *)
Definition only_calls (w w' : World) : Prop :=
  state w' = state w /\ alerts w' = alerts w /\ exists l, calls w' = calls w ++ l.

Lemma only_calls_refl w : only_calls w w.
Proof. repeat split. exists []. now rewrite app_nil_r. Qed.

Lemma only_calls_trans w1 w2 w3 :
  only_calls w1 w2 -> only_calls w2 w3 -> only_calls w1 w3.
Proof.
  intros (Hs & Ha & l & Hc) (Hs' & Ha' & l' & Hc'). repeat split; try congruence.
  exists (l ++ l'). rewrite Hc', Hc. now rewrite app_assoc.
Qed.

Section OrchestratorFacts.

Variable env : Env.

Lemma retry_loop_only_calls ai req maxRetries fuel :
  forall attempt w,
    only_calls w (snd (retry_loop env fuel ai req maxRetries attempt w)).
Proof.
  induction fuel as [| fuel IH]; intros attempt w; simpl;
    destruct (attempt <? maxRetries)%Z; try apply only_calls_refl.
  unfold try_catch, generateContent.
  destruct (backend env (length (calls w)) ai req) as [response | error].
  - repeat split. now exists [(ai, req)].
  - destruct (isRateLimit error && (attempt <? maxRetries - 1)%Z).
    + eapply only_calls_trans; [| apply IH].
      repeat split. now exists [(ai, req)].
    + repeat split. now exists [(ai, req)].
Qed.

(** The first attempt is always sent. *)
Lemma retry_loop_sends ai req maxRetries fuel attempt w :
  (attempt < maxRetries)%Z ->
  (length (calls w) <
   length (calls (snd (retry_loop env (S fuel) ai req maxRetries attempt w))))%nat.
Proof.
  intros Hlt. simpl.
  assert (Ha : (attempt <? maxRetries)%Z = true) by (apply Z.ltb_lt; lia).
  rewrite Ha. unfold try_catch, generateContent.
  destruct (backend env (length (calls w)) ai req) as [response | error].
  - simpl. rewrite length_app. simpl. lia.
  - destruct (isRateLimit error && (attempt <? maxRetries - 1)%Z).
    + unfold bind, console_log, delay. cbn [fst snd].
      match goal with
      | |- context [retry_loop env fuel ai req maxRetries ?a ?w1] =>
          destruct (retry_loop_only_calls ai req maxRetries fuel a w1)
            as (_ & _ & l & Hc);
          rewrite Hc
      end.
      simpl. rewrite !length_app. simpl. lia.
    + simpl. rewrite length_app. simpl. lia.
Qed.

Lemma getClient_with_key w :
  has_key env = true -> exists ai, getClient env w = (Ret ai, w).
Proof.
  unfold has_key, getClient. destruct (Js.or_undef _ _) as [key |]; simpl; [| discriminate].
  intros ->. simpl. eauto.
Qed.

Lemma getClient_without_key w :
  has_key env = false ->
  getClient env w = (Throw (Error "API Key not found in environment variables"), w).
Proof.
  unfold has_key, getClient. destruct (Js.or_undef _ _) as [key |]; simpl; [| reflexivity].
  intros ->. reflexivity.
Qed.

Lemma getClient_same_world w : snd (getClient env w) = w.
Proof.
  unfold getClient. destruct (Js.or_undef _ _) as [key |]; [| reflexivity].
  destruct (negb (Js.truthy key)); reflexivity.
Qed.

(** A service call settles, touches neither the React state nor the
    alerts, and with a key configured sends at least one request. *)
Lemma call_service_spec modelName prompt cfg fallback w :
  let r := call_service env modelName prompt cfg fallback w in
  fst r <> Pending
  /\ only_calls w (snd r)
  /\ (has_key env = true -> (length (calls w) < length (calls (snd r)))%nat)
  /\ (has_key env = false -> calls (snd r) = calls w).
Proof.
  intros r. subst r. unfold call_service, bind.
  destruct (getClient env w) as [[ai | e |] w0] eqn:Hg.
  - pose proof (getClient_same_world w) as Hw. rewrite Hg in Hw. simpl in Hw. subst w0.
    pose proof (generateContentWithRetry_settles env ai modelName prompt cfg
                  defaultMaxRetries w) as Hsettle.
    pose proof (retry_loop_only_calls ai
                  {| model := modelName; contents := prompt; config := cfg |}
                  defaultMaxRetries (Z.to_nat defaultMaxRetries) 0%Z w) as Honly.
    pose proof (retry_loop_sends ai
                  {| model := modelName; contents := prompt; config := cfg |}
                  defaultMaxRetries 2 0%Z w eq_refl) as Hsend.
    unfold generateContentWithRetry in *.
    change (Z.to_nat defaultMaxRetries) with 3%nat in *.
    destruct (retry_loop env 3 ai _ defaultMaxRetries 0%Z w) as [[response | e |] w1];
      simpl in *; repeat split; try discriminate; try tauto; try apply Honly.
    all: try (intros Hk; rewrite getClient_without_key in Hg by exact Hk; discriminate).
  - pose proof (getClient_same_world w) as Hw. rewrite Hg in Hw. simpl in Hw. subst w0.
    simpl. repeat split; try discriminate; try apply only_calls_refl.
    intros Hk. destruct (getClient_with_key w Hk) as [ai Hai]. congruence.
  - exfalso. unfold getClient in Hg. destruct (Js.or_undef _ _) as [key |]; [| discriminate].
    destruct (negb (Js.truthy key)); discriminate.
Qed.

End OrchestratorFacts.

Section OrchestratorClaims.

Variable env : Env.

(** Every branch of the [try] block but the one no stage takes is a
    service call followed by one write of a slot. *)
Lemma generateArtifact_try_shape step st :
  (step = RESEARCH /\ generateArtifact_try env step st = ret tt)
  \/ (step <> RESEARCH /\
      exists modelName prompt cfg fallback set,
        generateArtifact_try env step st =
        (let* result := call_service env modelName prompt cfg fallback in
         setState (fun prev => set result prev))
        /\ forall v s, currentStep (set v s) = currentStep s).
Proof.
  destruct step; [right | left | right | right | right | right];
    split; try discriminate; try reflexivity;
    do 5 eexists; split; try reflexivity; reflexivity.
Qed.

Lemma generateArtifact_try_spec step st w :
  let r := generateArtifact_try env step st w in
  fst r <> Pending
  /\ alerts (snd r) = alerts w
  /\ (exists l, calls (snd r) = calls w ++ l)
  /\ currentStep (state (snd r)) = currentStep (state w)
  /\ (forall e, fst r = Throw e -> state (snd r) = state w)
  /\ (step <> RESEARCH -> has_key env = true ->
      (length (calls w) < length (calls (snd r)))%nat)
  /\ (has_key env = false -> calls (snd r) = calls w).
Proof.
  intros r. subst r.
  destruct (generateArtifact_try_shape step st)
    as [[-> ->] | (Hne & m & p & c & fb & set & -> & Hset)].
  - simpl. repeat split; try discriminate; try congruence.
    exists []. now rewrite app_nil_r.
  - destruct (call_service_spec env m p c fb w) as (Hp & (Hs & Ha & Hl) & Hsend & Hnone).
    unfold bind, setState.
    destruct (call_service env m p c fb w) as [[result | e |] w1]; simpl in *;
      repeat split; try discriminate; try tauto; try congruence.
Qed.

(** [generateArtifact] step by step: the flag is set, the [try] block
    runs, a failure is logged and shown in an alert, the flag is
    cleared. *)
Lemma generateArtifact_unfold step w :
  let body := generateArtifact_try env step (state w)
                (with_state (set_isGenerating true) w) in
  generateArtifact env step w =
  match fst body with
  | Ret _ => (Ret tt, with_state (set_isGenerating false) (snd body))
  | Throw e =>
      (Ret tt,
       with_state (set_isGenerating false)
         (with_alert generation_failed_alert
            (with_log (ConsoleError "Generation failed:" e) (snd body))))
  | Pending => (Pending, snd body)
  end.
Proof.
  intros body. subst body.
  unfold generateArtifact, bind, try_finally, try_catch, setState, console_log, alert.
  destruct (generateArtifact_try env step (state w) _) as [[[] | e |] w1];
    reflexivity.
Qed.

(** [generateArtifact] never throws and never hangs. *)
Lemma generateArtifact_returns step w : fst (generateArtifact env step w) = Ret tt.
Proof.
  rewrite generateArtifact_unfold.
  destruct (generateArtifact_try_spec step (state w)
              (with_state (set_isGenerating true) w)) as (Hp & _).
  destruct (fst (generateArtifact_try env step (state w) _)); try reflexivity.
  congruence.
Qed.

Lemma generateArtifact_keeps_currentStep step w :
  currentStep (state (snd (generateArtifact env step w))) = currentStep (state w).
Proof.
  rewrite generateArtifact_unfold.
  destruct (generateArtifact_try_spec step (state w)
              (with_state (set_isGenerating true) w)) as (_ & _ & _ & Hc & _).
  destruct (fst (generateArtifact_try env step (state w) _)); simpl; exact Hc.
Qed.

(** C1, as amended: [generateArtifact] checks no prerequisite.  Invoked
    for a stage whose prerequisite slot is empty, with an API key in the
    environment, it raises nothing and sends at least one generation
    call.  The prerequisite is enforced by the pages only: the planning,
    design and code pages disable their trigger button while the slot is
    empty, the PRD page disables its button only during a generation. *)
Theorem C1_prerequisite_enforced_by_pages_only step slot w :
  prerequisite step = Some slot ->
  slot (state w) = ""%string ->
  has_key env = true ->
  let r := generateArtifact env step w in
  fst r = Ret tt
  /\ (length (calls w) < length (calls (snd r)))%nat
  /\ (step = PLANNING -> PlanningPage_disabled (state w) = true)
  /\ (step = DESIGN -> DesignPage_disabled (state w) = true)
  /\ (step = CODE -> CodePage_disabled (state w) = true)
  /\ (step = PRD -> PrdPage_disabled (state w) = isGenerating (state w)).
Proof.
  intros Hpre Hempty Hkey r. subst r.
  split; [apply generateArtifact_returns |].
  split.
  - rewrite generateArtifact_unfold.
    destruct (generateArtifact_try_spec step (state w)
                (with_state (set_isGenerating true) w))
      as (_ & _ & _ & _ & _ & Hsend & _).
    assert (Hne : step <> RESEARCH) by (intros ->; discriminate).
    specialize (Hsend Hne Hkey).
    destruct (fst (generateArtifact_try env step (state w) _)); simpl in *; exact Hsend.
  - repeat split; intros ->; simpl in Hpre; inversion Hpre; subst slot;
      unfold PlanningPage_disabled, DesignPage_disabled, CodePage_disabled,
        PrdPage_disabled; try rewrite Hempty; simpl; auto using orb_true_r.
Qed.

(** C2, as amended: when the generation call of a stage fails, the
    operation clears the in-progress flag and leaves the rest of the
    state, every output slot included, as it was; the error is not
    propagated: it is written to the console, an alert is shown, and the
    operation returns normally. *)
Theorem C2_failure_reported_not_propagated step w e :
  let body := generateArtifact_try env step (state w)
                (with_state (set_isGenerating true) w) in
  fst body = Throw e ->
  let r := generateArtifact env step w in
  fst r = Ret tt
  /\ state (snd r) = set_isGenerating false (state w)
  /\ isGenerating (state (snd r)) = false
  /\ (synthesizedIdea (state (snd r)), prdOutput (state (snd r)),
      roadmapOutput (state (snd r)), designSystemOutput (state (snd r)),
      codePromptOutput (state (snd r)))
     = (synthesizedIdea (state w), prdOutput (state w), roadmapOutput (state w),
        designSystemOutput (state w), codePromptOutput (state w))
  /\ console (snd r) = console (snd body) ++ [ConsoleError "Generation failed:" e]
  /\ alerts (snd r) = alerts w ++ [generation_failed_alert].
Proof.
  intros body Hthrow r. subst r.
  rewrite generateArtifact_unfold. fold body.
  destruct (generateArtifact_try_spec step (state w)
              (with_state (set_isGenerating true) w))
    as (_ & Hal & _ & _ & Hst & _). fold body in Hal, Hst.
  specialize (Hst e Hthrow). rewrite Hthrow. simpl.
  rewrite Hst, Hal. simpl. repeat split.
Qed.

End OrchestratorClaims.

Lemma C1_prerequisite_witness :
  let w := initialWorld in
  let r := generateArtifact Scenario.always_answers PLANNING w in
  fst r = Ret tt
  /\ (length (calls w) < length (calls (snd r)))%nat
  /\ (PLANNING = PLANNING -> PlanningPage_disabled (state w) = true)
  /\ (PLANNING = DESIGN -> DesignPage_disabled (state w) = true)
  /\ (PLANNING = CODE -> CodePage_disabled (state w) = true)
  /\ (PLANNING = PRD -> PrdPage_disabled (state w) = isGenerating (state w)).
Proof.
  apply (C1_prerequisite_enforced_by_pages_only Scenario.always_answers
           PLANNING prdOutput initialWorld); reflexivity.
Defined.

(** C1 as stated fails: the planning stage invoked on the initial state,
    whose PRD slot is empty, raises nothing, sends one generation call and
    writes the roadmap slot. *)
Lemma C1_counterexample :
  let r := generateArtifact Scenario.always_answers PLANNING initialWorld in
  prerequisite PLANNING = Some prdOutput
  /\ prdOutput (state initialWorld) = ""%string
  /\ fst r = Ret tt
  /\ length (calls (snd r)) = 1%nat
  /\ roadmapOutput (state (snd r)) = "generated"%string.
Proof. vm_compute. repeat split. Qed.

Lemma C2_failure_witness :
  let w := initialWorld in
  let r := generateArtifact Scenario.always_unauthorized PLANNING w in
  fst r = Ret tt
  /\ state (snd r) = set_isGenerating false (state w)
  /\ isGenerating (state (snd r)) = false
  /\ (synthesizedIdea (state (snd r)), prdOutput (state (snd r)),
      roadmapOutput (state (snd r)), designSystemOutput (state (snd r)),
      codePromptOutput (state (snd r)))
     = (synthesizedIdea (state w), prdOutput (state w), roadmapOutput (state w),
        designSystemOutput (state w), codePromptOutput (state w))
  /\ console (snd r) =
     console (snd (generateArtifact_try Scenario.always_unauthorized PLANNING (state w)
                     (with_state (set_isGenerating true) w)))
     ++ [ConsoleError "Generation failed:" Scenario.unauthorized]
  /\ alerts (snd r) = alerts w ++ [generation_failed_alert].
Proof.
  apply (C2_failure_reported_not_propagated Scenario.always_unauthorized
           PLANNING initialWorld Scenario.unauthorized).
  reflexivity.
Defined.

(** C2 as stated fails: the backend rejects the key, the generation call
    throws that error, and [generateArtifact] returns normally instead of
    propagating it. *)
Lemma C2_counterexample :
  let w := with_state (set_prdOutput "prd") initialWorld in
  let r := generateArtifact Scenario.always_unauthorized PLANNING w in
  fst (generatePlan Scenario.always_unauthorized "prd"
         (with_state (set_isGenerating true) w)) = Throw Scenario.unauthorized
  /\ fst r = Ret tt
  /\ fst r <> Throw Scenario.unauthorized.
Proof. vm_compute. repeat split. discriminate. Qed.

(** ** The document ingestor *)

Lemma split_comma_no_comma s : Js.no_comma s = true -> Js.split_comma s = [s].
Proof.
  induction s as [| c rest IH]; simpl; [reflexivity |].
  destruct (Ascii.eqb c ","%char); simpl; [discriminate |].
  intros H. rewrite (IH H). reflexivity.
Qed.





(** The payload of the PDF scenario, as stored. *)
Example pdf_content_is_payload :
  map doc_content
    (research (state (snd (addResearch "k3j9x0q1z" Scenario.pdf_file initialWorld))))
  = [Some "JVBERi0xLjc="%string].
Proof. reflexivity. Qed.


(** A PDF whose read ends with an [error] event: the promise has no
    handler for it and never settles. *)
Lemma unreadable_pdf_never_settles rand_id file w :
  file_type file = "application/pdf"%string ->
  file_readAsDataURL file = ErrorEvent ->
  addResearch rand_id file w = (Pending, w).
Proof.
  intros Ht He. unfold addResearch, bind, readPdfAsBase64.
  rewrite Ht, He. reflexivity.
Qed.

(** Any other file whose read fails: the rejection of [file.text()]
    reaches the caller and nothing is appended. *)
Lemma unreadable_text_rejects rand_id file w error :
  file_type file <> "application/pdf"%string ->
  file_text file = TextRejected error ->
  addResearch rand_id file w = (Throw error, w).
Proof.
  intros Ht He. unfold addResearch, bind, readText.
  apply String.eqb_neq in Ht. rewrite Ht, He. reflexivity.
Qed.

(** C7: for a PDF whose bytes cannot be read, [addResearch] neither fails
    nor returns: its promise never settles.  Nothing is appended.  (For a
    file that is not a PDF the read error does reach the caller.) *)
Theorem C7_unreadable_pdf_hangs :
  addResearch "k3j9x0q1z" Scenario.unreadable_pdf initialWorld = (Pending, initialWorld)
  /\ (forall e,
        fst (addResearch "k3j9x0q1z" Scenario.unreadable_pdf initialWorld) <> Throw e)
  /\ addResearch "k3j9x0q1z" Scenario.unreadable_text initialWorld
     = (Throw (Error "NotReadableError"), initialWorld).
Proof. repeat split. intros e. discriminate. Qed.

(** ** Reset and the stage marker *)

(** The [id] field inside the state object is not part of [initialState]
    and so is not carried over by a reset; the project stays the current
    one through the provider's [currentProjectId]. *)
Lemma reset_state_has_no_id w : project_id (state (snd (resetProject true w))) = None.
Proof. reflexivity. Qed.

(** A reset that the user does not confirm changes nothing. *)
Lemma reset_declined w : resetProject false w = (Ret tt, w).
Proof. reflexivity. Qed.


Lemma addResearch_keeps_currentStep rand_id file w :
  currentStep (state (snd (addResearch rand_id file w))) = currentStep (state w).
Proof.
  unfold addResearch, bind, readPdfAsBase64, readText, setState, ret, throw, never.
  destruct (String.eqb (file_type file) "application/pdf").
  - destruct (file_readAsDataURL file) as [[result |] | |]; try reflexivity.
    destruct (Js.truthy result); reflexivity.
  - destruct (file_text file); reflexivity.
Qed.

(** No operation writes the stage marker, and a reset writes [IDEA]. *)
Lemma perform_keeps_IDEA env op w :
  currentStep (state w) = IDEA ->
  currentStep (state (snd (perform env op w))) = IDEA.
Proof.
  intros Hw. destruct op as [idea | rand_id file | step | confirmed]; simpl.
  - exact Hw.
  - rewrite addResearch_keeps_currentStep. exact Hw.
  - rewrite generateArtifact_keeps_currentStep. exact Hw.
  - destruct confirmed; [reflexivity | exact Hw].
Qed.

(** C10: whatever operations are performed from the initial state, the
    stage marker is still [IDEA]. *)
Theorem C10_stage_marker_stays_IDEA env w :
  reachable env w -> currentStep (state w) = IDEA.
Proof.
  induction 1 as [| w op Hreach IH].
  - reflexivity.
  - apply perform_keeps_IDEA. exact IH.
Qed.

Lemma C10_stage_marker_witness :
  currentStep
    (state (snd (perform Scenario.always_answers (GenerateArtifact PRD)
                   (snd (perform Scenario.always_answers (GenerateArtifact IDEA)
                           (snd (perform Scenario.always_answers
                                   (UpdateIdea "fitness app for seniors")
                                   initialWorld)))))))
  = IDEA.
Proof.
  apply (C10_stage_marker_stays_IDEA Scenario.always_answers).
  do 3 apply reachable_step. apply reachable_initial.
Defined.

(** The run of the witness did generate both outputs. *)
Example two_stages_generated :
  let w := snd (perform Scenario.always_answers (GenerateArtifact PRD)
             (snd (perform Scenario.always_answers (GenerateArtifact IDEA)
                (snd (perform Scenario.always_answers
                        (UpdateIdea "fitness app for seniors") initialWorld))))) in
  synthesizedIdea (state w) = "generated"%string
  /\ prdOutput (state w) = "generated"%string
  /\ length (calls w) = 2%nat.
Proof. vm_compute. repeat split. Qed.

(** ** Loading a project *)

(** C8, as amended: [loadProject] never throws.  It returns the stored
    project when the read succeeds and finds one, and [null] otherwise:
    when no document exists, and also when the read fails, in which case
    the error is written to the console. *)
Theorem C8_load_failure_becomes_null db userId :
  fst (loadProject db userId)
  = Ret (match outage db with
         | Some _ => None
         | None => projects db !! userId
         end)
  /\ (fst (loadProject db userId) = Ret None
      <-> projects db !! userId = None \/ outage db <> None)
  /\ (forall error, outage db = Some error ->
        snd (loadProject db userId) = [ConsoleError "Error loading project:" error])
  /\ (outage db = None -> snd (loadProject db userId) = []).
Proof.
  unfold loadProject, getDoc.
  destruct (outage db) as [error |] eqn:Hout.
  - simpl. repeat split; try discriminate; auto.
    + intros error' [= ->]. reflexivity.
  - destruct (projects db !! userId) as [data |] eqn:Hl; simpl.
    + repeat split; try discriminate; auto.
      intros [? | ?]; congruence.
    + repeat split; try discriminate; auto.
Qed.

(** C8 as stated fails: the store cannot be reached, a project exists for
    the user, and [loadProject] returns [null] instead of raising. *)
Lemma C8_counterexample :
  projects Scenario.unreachable_store !! "u1"%string = Some Scenario.stored
  /\ getDoc Scenario.unreachable_store "u1" = inl Scenario.unavailable
  /\ fst (loadProject Scenario.unreachable_store "u1") = Ret None
  /\ (forall e, fst (loadProject Scenario.unreachable_store "u1") <> Throw e).
Proof.
  split; [apply lookup_singleton_eq |].
  repeat split. intros e. discriminate.
Qed.

(** The sibling [saveProject] does rethrow. *)
Example saveProject_rethrows :
  fst (fst (saveProject Scenario.unreachable_store "u1" initialState))
  = Throw Scenario.unavailable.
Proof. reflexivity. Qed.

(** ** The debounced autosave *)

Section AutosaveFacts.

Import Autosave.

Variables (uid pid : string).
Hypothesis pid_truthy : Js.truthy pid = true.

(** A mutation cancels whatever was pending and arms a new timeout;
    nothing is written. *)
Lemma mutate_arms f p :
  user p = Some uid -> currentProjectId p = Some pid ->
  armed uid pid (mutate f p) /\ saves (mutate f p) = saves p
  /\ state (mutate f p) = f (state p).
Proof.
  intros Hu Hp. unfold armed, mutate, runEffect. simpl.
  rewrite Hu, Hp, pid_truthy. repeat split.
Qed.

(** Less than the quiet period after a mutation, the timeout has not
    run. *)
Lemma elapse_quiet dt p :
  armed uid pid p -> (0 <= dt < quietPeriod)%Z ->
  saves (elapse dt p) = saves p
  /\ state (elapse dt p) = state p /\ user (elapse dt p) = Some uid
  /\ currentProjectId (elapse dt p) = Some pid.
Proof.
  intros (Hu & Hp & Ht) Hdt. unfold elapse. rewrite Ht. simpl.
  assert (Hno : (now p + quietPeriod <=? now p + dt)%Z = false)
    by (apply Z.leb_gt; lia).
  rewrite Hno. simpl. repeat split; assumption.
Qed.

Lemma burst_still_armed ms :
  forall p,
    armed uid pid p ->
    Forall (fun m => 0 <= fst m < quietPeriod)%Z ms ->
    armed uid pid (burst ms p) /\ saves (burst ms p) = saves p
    /\ state (burst ms p) = final_state ms (state p).
Proof.
  induction ms as [| [dt f] ms IH]; intros p Harmed Hgaps; simpl.
  - repeat split; apply Harmed.
  - inversion Hgaps as [| m ms' Hdt Hrest]; subst. simpl in Hdt.
    destruct (elapse_quiet dt p Harmed Hdt) as (Hs & Hst & Hu & Hp).
    destruct (mutate_arms f (elapse dt p) Hu Hp) as (Ha' & Hs' & Hst').
    destruct (IH (mutate f (elapse dt p)) Ha' Hrest) as (Ha'' & Hs'' & Hst'').
    repeat split; try apply Ha''.
    + rewrite Hs'', Hs', Hs. reflexivity.
    + rewrite Hst'', Hst', Hst. unfold final_state. reflexivity.
Qed.

(** Once the quiet period has passed, the timeout runs and saves the
    state it closed over. *)
Lemma elapse_saves dt p :
  armed uid pid p -> (quietPeriod <= dt)%Z ->
  saves (elapse dt p)
  = saves p ++ [{| save_uid := uid; save_project := pid; save_state := state p |}]
  /\ timeoutId (elapse dt p) = None.
Proof.
  intros (Hu & Hp & Ht) Hdt. unfold elapse. rewrite Ht. simpl.
  assert (Hyes : (now p + quietPeriod <=? now p + dt)%Z = true)
    by (apply Z.leb_le; lia).
  rewrite Hyes. simpl. split; reflexivity.
Qed.

End AutosaveFacts.

(** Without a signed-in user, or without a current project, the effect
    schedules nothing. *)
Lemma signed_out_never_saves f p :
  Autosave.user p = None \/ Autosave.currentProjectId p = None ->
  Autosave.timeoutId (Autosave.mutate f p) = None.
Proof.
  unfold Autosave.mutate, Autosave.runEffect. simpl.
  intros [-> | ->]; [reflexivity |]. destruct (Autosave.user p); reflexivity.
Qed.

(** C5, as amended: for a signed-in user with a project selected, a burst of
    mutations, each less than the quiet period after the one before it,
    writes nothing while it lasts; once the quiet period has passed after
    the last of them, exactly one save has been made, and it holds the
    state the last mutation produced.  Each mutation cancels the pending
    timeout and arms a new one. *)
Theorem C5_burst_saved_once_with_last_state
    (p : Autosave.Provider) (uid pid : string)
    (f : ProjectState -> ProjectState)
    (ms : list (Z * (ProjectState -> ProjectState))) (dt : Z) :
  Autosave.user p = Some uid ->
  Autosave.currentProjectId p = Some pid ->
  Js.truthy pid = true ->
  Forall (fun m => 0 <= fst m < Autosave.quietPeriod)%Z ms ->
  (Autosave.quietPeriod <= dt)%Z ->
  let during := Autosave.burst ms (Autosave.mutate f p) in
  Autosave.saves during = Autosave.saves p
  /\ Autosave.timeoutId during
     = Some {| Autosave.due := Autosave.now during + Autosave.quietPeriod;
               Autosave.timeout_uid := uid; Autosave.timeout_project := pid;
               Autosave.timeout_state := Autosave.final_state ms (f (Autosave.state p)) |}
  /\ Autosave.saves (Autosave.elapse dt during)
     = Autosave.saves p
       ++ [{| Autosave.save_uid := uid; Autosave.save_project := pid;
              Autosave.save_state := Autosave.final_state ms (f (Autosave.state p)) |}]
  /\ Autosave.timeoutId (Autosave.elapse dt during) = None.
Proof.
  intros Hu Hp Hpid Hgaps Hdt during. subst during.
  destruct (mutate_arms uid pid Hpid f p Hu Hp) as (Ha & Hs & Hst).
  destruct (burst_still_armed uid pid Hpid ms _ Ha Hgaps) as (Ha' & Hs' & Hst').
  destruct (elapse_saves uid pid dt _ Ha' Hdt) as (Hsave & Hnone).
  rewrite Hst in Hst'.
  split; [congruence |].
  split; [destruct Ha' as (_ & _ & Ht); rewrite Ht, Hst'; reflexivity |].
  split; [rewrite Hsave, Hs', Hs, Hst'; reflexivity | exact Hnone].
Qed.

Lemma C5_burst_witness :
  let p := Scenario.provider in
  let during := Autosave.burst Scenario.keystrokes
                  (Autosave.mutate (set_ideaInput "a") p) in
  Autosave.saves during = Autosave.saves p
  /\ Autosave.timeoutId during
     = Some {| Autosave.due := Autosave.now during + Autosave.quietPeriod;
               Autosave.timeout_uid := "u1"; Autosave.timeout_project := "p1";
               Autosave.timeout_state :=
                 Autosave.final_state Scenario.keystrokes
                   (set_ideaInput "a" (Autosave.state p)) |}
  /\ Autosave.saves (Autosave.elapse 2000 during)
     = Autosave.saves p
       ++ [{| Autosave.save_uid := "u1"; Autosave.save_project := "p1";
              Autosave.save_state :=
                Autosave.final_state Scenario.keystrokes
                  (set_ideaInput "a" (Autosave.state p)) |}]
  /\ Autosave.timeoutId (Autosave.elapse 2000 during) = None.
Proof.
  apply (C5_burst_saved_once_with_last_state Scenario.provider "u1" "p1"
           (set_ideaInput "a") Scenario.keystrokes 2000).
  - reflexivity.
  - reflexivity.
  - reflexivity.
  - repeat constructor; simpl; unfold Autosave.quietPeriod; lia.
  - unfold Autosave.quietPeriod; lia.
Defined.

(** The burst of the witness, run: one save, holding the last keystroke. *)
Example keystrokes_saved_once :
  map (fun s => ideaInput (Autosave.save_state s))
    (Autosave.saves
       (Autosave.elapse 2000
          (Autosave.burst Scenario.keystrokes
             (Autosave.mutate (set_ideaInput "a") Scenario.provider))))
  = ["abc"%string].
Proof. reflexivity. Qed.

(** Before sign-in the same burst is never saved. *)
Example signed_out_burst_not_saved :
  Autosave.saves
    (Autosave.elapse 2000
       (Autosave.burst Scenario.keystrokes
          (Autosave.mutate (set_ideaInput "a") Scenario.signed_out)))
  = [].
Proof. reflexivity. Qed.

(** * Further properties of the code *)

(** ** The transport, for any backend *)

Section TransportProfile.

Variable env : Env.
Variables (ai : Client) (req : Request).

(** What any run of the loop looks like: it settles after [n] calls of the
    same request, [n] between 1 and the attempts left; the calls before
    the last were rate-limit failures, each followed by its wait; and the
    outcome is the answer of the last call. *)
Lemma retry_loop_profile maxRetries fuel :
  forall attempt w,
    (attempt < maxRetries)%Z ->
    (Z.to_nat (maxRetries - attempt) <= fuel)%nat ->
    let r := retry_loop env fuel ai req maxRetries attempt w in
    exists n,
      (1 <= n <= Z.to_nat (maxRetries - attempt))%nat
      /\ calls (snd r) = calls w ++ replicate n (ai, req)
      /\ sleeps (snd r) = sleeps w ++ backoff attempt (n - 1)
      /\ state (snd r) = state w
      /\ alerts (snd r) = alerts w
      /\ currentProjectId (snd r) = currentProjectId w
      /\ (forall k, (k < n - 1)%nat ->
            exists e, backend env (length (calls w) + k) ai req = Failed e
                      /\ isRateLimit e = true)
      /\ fst r = match backend env (length (calls w) + (n - 1)) ai req with
                 | Ok response => Ret response
                 | Failed e => Throw e
                 end.
Proof.
  induction fuel as [| fuel IH]; intros attempt w Hlt Hfuel r; [lia |].
  subst r.
  destruct (backend env (length (calls w)) ai req) as [response | error] eqn:Hb.
  - rewrite (retry_loop_returns env ai req _ _ _ _ response Hlt Hb).
    exists 1%nat. simpl. rewrite Nat.add_0_r, Hb.
    repeat split; try lia. rewrite app_nil_r. reflexivity.
  - destruct (isRateLimit error) eqn:Hrl;
      [destruct (Z_lt_dec attempt (maxRetries - 1)) as [Hmore | Hlast] |].
    + rewrite (retry_loop_retries env ai req _ _ _ _ error Hmore Hb Hrl).
      set (w1 := with_sleep _ _).
      destruct (IH (attempt + 1)%Z w1) as (n & Hn & Hc & Hs & Hst & Hal & Hid & Hprev & Hres);
        [lia | lia |].
      assert (Hlen : length (calls w1) = S (length (calls w)))
        by (subst w1; simpl; rewrite length_app; simpl; lia).
      exists (S n). rewrite Hc, Hs, Hst, Hal, Hid, Hres.
      replace (S n - 1)%nat with (S (n - 1)) by lia.
      rewrite backoff_S. subst w1. simpl. rewrite <- !app_assoc. simpl.
      repeat split; try lia.
      * intros k Hk. destruct k as [| k].
        -- exists error. rewrite Nat.add_0_r. auto.
        -- destruct (Hprev k) as (e & He & Hre); [lia |].
           exists e. split; [| exact Hre].
           rewrite <- He. f_equal. simpl. rewrite length_app. simpl. lia.
      * simpl. rewrite length_app. simpl.
        replace (length (calls w) + 1 + (n - 1))%nat
          with (length (calls w) + S (n - 1))%nat by lia.
        reflexivity.
    + rewrite (retry_loop_rethrows env ai req _ _ _ _ error Hlt Hb); [| right; lia].
      exists 1%nat. simpl. rewrite Nat.add_0_r, Hb.
      repeat split; try lia. rewrite app_nil_r. reflexivity.
    + rewrite (retry_loop_rethrows env ai req _ _ _ _ error Hlt Hb); [| left; exact Hrl].
      exists 1%nat. simpl. rewrite Nat.add_0_r, Hb.
      repeat split; try lia. rewrite app_nil_r. reflexivity.
Qed.

(** [k] rate-limit failures and then an answer, with attempts to spare. *)
Lemma retry_loop_recovers k :
  forall fuel attempt maxRetries w (err : nat -> JsError) response,
    (S k <= fuel)%nat ->
    (attempt + Z.of_nat k < maxRetries)%Z ->
    (forall i, (i < k)%nat ->
       backend env (length (calls w) + i) ai req = Failed (err i)
       /\ isRateLimit (err i) = true) ->
    backend env (length (calls w) + k) ai req = Ok response ->
    let r := retry_loop env fuel ai req maxRetries attempt w in
    fst r = Ret response
    /\ calls (snd r) = calls w ++ replicate (S k) (ai, req)
    /\ sleeps (snd r) = sleeps w ++ backoff attempt k.
Proof.
  induction k as [| k IH]; intros fuel attempt maxRetries w err response Hfuel Hmax Hall Hok r;
    (destruct fuel as [| fuel]; [lia |]); subst r.
  - rewrite Nat.add_0_r in Hok.
    rewrite (retry_loop_returns env ai req _ _ _ _ response); [| lia | exact Hok].
    simpl. rewrite app_nil_r. auto.
  - destruct (Hall 0%nat) as [Hb Hrl]; [lia |]. rewrite Nat.add_0_r in Hb.
    rewrite (retry_loop_retries env ai req _ _ _ _ (err 0%nat)); [| lia | exact Hb | exact Hrl].
    set (w1 := with_sleep _ _).
    assert (Hlen : length (calls w1) = S (length (calls w)))
      by (subst w1; simpl; rewrite length_app; simpl; lia).
    destruct (IH fuel (attempt + 1)%Z maxRetries w1 (fun i => err (S i)) response)
      as (Hr & Hc & Hs); [lia | lia | | |].
    { intros i Hi. rewrite Hlen.
      replace (S (length (calls w)) + i)%nat with (length (calls w) + S i)%nat by lia.
      apply Hall. lia. }
    { rewrite Hlen.
      replace (S (length (calls w)) + k)%nat with (length (calls w) + S k)%nat by lia.
      exact Hok. }
    rewrite Hr, Hc, Hs. subst w1. simpl.
    rewrite backoff_S, <- !app_assoc. simpl. auto.
Qed.

End TransportProfile.

(** Whatever the backend does and as long as one attempt is allowed, the
    transport settles after at least one and at most [maxRetries] calls of
    the same request; every call but the last was a rate-limit failure and
    was followed by a wait of 1 s, 2 s, 4 s, ...; and what it returns or
    throws is the answer of its last call. *)
Theorem transport_result_is_last_answer env ai modelName prompt cfg maxRetries w :
  (1 <= maxRetries)%Z ->
  let req := request_of modelName prompt cfg in
  let r := generateContentWithRetry env ai modelName prompt cfg maxRetries w in
  exists n,
    (1 <= n <= Z.to_nat maxRetries)%nat
    /\ calls (snd r) = calls w ++ replicate n (ai, req)
    /\ sleeps (snd r) = sleeps w ++ backoff 0 (n - 1)
    /\ (forall k, (k < n - 1)%nat ->
          exists e, backend env (length (calls w) + k) ai req = Failed e
                    /\ isRateLimit e = true)
    /\ fst r = match backend env (length (calls w) + (n - 1)) ai req with
               | Ok response => Ret response
               | Failed e => Throw e
               end.
Proof.
  intros Hmax req r. subst r. unfold generateContentWithRetry.
  destruct (retry_loop_profile env ai req maxRetries (Z.to_nat maxRetries) 0%Z w)
    as (n & Hn & Hc & Hs & _ & _ & _ & Hprev & Hres); [lia | lia |].
  exists n. rewrite Z.sub_0_r in Hn. auto.
Qed.

Lemma transport_result_witness :
  let req := request_of "gemini-2.0-flash" (PlanPrompt "prd") Scenario.cfg in
  let r := generateContentWithRetry Scenario.twice_limited Scenario.ai
             "gemini-2.0-flash" (PlanPrompt "prd") Scenario.cfg 3 initialWorld in
  exists n,
    (1 <= n <= Z.to_nat 3)%nat
    /\ calls (snd r) = calls initialWorld ++ replicate n (Scenario.ai, req)
    /\ sleeps (snd r) = sleeps initialWorld ++ backoff 0 (n - 1)
    /\ (forall k, (k < n - 1)%nat ->
          exists e, backend Scenario.twice_limited (length (calls initialWorld) + k)
                      Scenario.ai req = Failed e
                    /\ isRateLimit e = true)
    /\ fst r = match backend Scenario.twice_limited
                       (length (calls initialWorld) + (n - 1)) Scenario.ai req with
               | Ok response => Ret response
               | Failed e => Throw e
               end.
Proof.
  apply (transport_result_is_last_answer Scenario.twice_limited Scenario.ai
           "gemini-2.0-flash" (PlanPrompt "prd") Scenario.cfg 3 initialWorld).
  lia.
Defined.

(** After [k] rate-limit failures, [k] below [maxRetries], an answer is
    returned: [k + 1] calls were made and the waits were the first [k] of
    1 s, 2 s, 4 s, ... *)
Theorem transport_recovers_after_rate_limits
    env ai modelName prompt cfg maxRetries w (k : nat) (err : nat -> JsError) response :
  (Z.of_nat k < maxRetries)%Z ->
  (forall i, (i < k)%nat ->
     backend env (length (calls w) + i) ai (request_of modelName prompt cfg)
     = Failed (err i)
     /\ isRateLimit (err i) = true) ->
  backend env (length (calls w) + k) ai (request_of modelName prompt cfg) = Ok response ->
  let r := generateContentWithRetry env ai modelName prompt cfg maxRetries w in
  fst r = Ret response
  /\ calls (snd r) = calls w ++ replicate (S k) (ai, request_of modelName prompt cfg)
  /\ sleeps (snd r) = sleeps w ++ backoff 0 k.
Proof.
  intros Hk Hall Hok r. subst r. unfold generateContentWithRetry.
  apply (retry_loop_recovers env ai (request_of modelName prompt cfg) k
           (Z.to_nat maxRetries) 0%Z maxRetries w err response); try assumption; lia.
Qed.

Lemma transport_recovers_witness :
  let r := generateContentWithRetry Scenario.twice_limited Scenario.ai
             "gemini-2.0-flash" (PlanPrompt "prd") Scenario.cfg 5 initialWorld in
  fst r = Ret (Scenario.answer "third")
  /\ calls (snd r)
     = calls initialWorld
       ++ replicate 3 (Scenario.ai, request_of "gemini-2.0-flash" (PlanPrompt "prd") Scenario.cfg)
  /\ sleeps (snd r) = sleeps initialWorld ++ backoff 0 2.
Proof.
  apply (transport_recovers_after_rate_limits Scenario.twice_limited Scenario.ai
           "gemini-2.0-flash" (PlanPrompt "prd") Scenario.cfg 5 initialWorld 2
           (fun _ => Scenario.rate_limited) (Scenario.answer "third")).
  - lia.
  - intros i Hi. destruct i as [| [| i]]; [split; reflexivity | split; reflexivity | lia].
  - reflexivity.
Defined.

(** A failure that is not a rate limit: one call, no wait, the same error. *)
Lemma non_retryable_witness :
  generateContentWithRetry Scenario.always_unauthorized Scenario.ai
    "gemini-2.0-flash" (PlanPrompt "prd") Scenario.cfg 3 initialWorld
  = (Throw Scenario.unauthorized,
     with_log (ConsoleError (api_error_label "gemini-2.0-flash") Scenario.unauthorized)
       (with_call (Scenario.ai, request_of "gemini-2.0-flash" (PlanPrompt "prd") Scenario.cfg)
          initialWorld)).
Proof.
  apply (non_retryable_propagates Scenario.always_unauthorized Scenario.ai
           "gemini-2.0-flash" (PlanPrompt "prd") Scenario.cfg 3 initialWorld
           Scenario.unauthorized).
  - lia.
  - reflexivity.
  - reflexivity.
Defined.

Lemma no_attempt_witness :
  generateContentWithRetry Scenario.always_answers Scenario.ai
    "gemini-2.0-flash" (PlanPrompt "prd") Scenario.cfg 0 initialWorld
  = (Throw (Error "Max retries exceeded"), initialWorld).
Proof.
  apply (no_attempt_max_retries_exceeded Scenario.always_answers Scenario.ai
           "gemini-2.0-flash" (PlanPrompt "prd") Scenario.cfg 0 initialWorld).
  lia.
Defined.

(** ** The service functions *)

Lemma getClient_configured env w :
  getClient env w = match configured_key env with
                    | Some key => (Ret {| apiKey := key |}, w)
                    | None => (Throw key_missing, w)
                    end.
Proof.
  unfold getClient, configured_key.
  destruct (Js.or_undef (VITE_API_KEY env) (API_KEY env)) as [key |]; [| reflexivity].
  destruct (Js.truthy key); reflexivity.
Qed.

Lemma has_key_configured env : has_key env = false <-> configured_key env = None.
Proof.
  unfold has_key, configured_key.
  destruct (Js.or_undef (VITE_API_KEY env) (API_KEY env)) as [key |]; simpl; [| tauto].
  destruct (Js.truthy key); split; congruence.
Qed.

Lemma text_or_truthy response fallback :
  Js.truthy fallback = true -> Js.truthy (text_or response fallback) = true.
Proof.
  unfold text_or, Js.or_opt, Js.or. intros Hf.
  destruct (text response) as [t |]; [| exact Hf].
  destruct (Js.truthy t) eqn:Ht; [exact Ht | exact Hf].
Qed.

(** One service call: without a key nothing happens but the throw; with a
    key the transport is run once with three attempts. *)
Lemma call_service_profile env modelName prompt cfg fallback w :
  let r := call_service env modelName prompt cfg fallback w in
  match configured_key env with
  | None => r = (Throw key_missing, w)
  | Some key =>
      let ai := {| apiKey := key |} in
      let req := request_of modelName prompt cfg in
      exists n,
        (1 <= n <= 3)%nat
        /\ calls (snd r) = calls w ++ replicate n (ai, req)
        /\ sleeps (snd r) = sleeps w ++ backoff 0 (n - 1)
        /\ state (snd r) = state w
        /\ alerts (snd r) = alerts w
        /\ currentProjectId (snd r) = currentProjectId w
        /\ fst r = match backend env (length (calls w) + (n - 1)) ai req with
                   | Ok response => Ret (text_or response fallback)
                   | Failed e => Throw e
                   end
  end.
Proof.
  intros r. subst r. unfold call_service, bind. rewrite getClient_configured.
  destruct (configured_key env) as [key |]; [| reflexivity].
  cbv zeta. unfold generateContentWithRetry. fold (request_of modelName prompt cfg).
  set (ai := {| apiKey := key |}). set (req := request_of modelName prompt cfg).
  destruct (retry_loop_profile env ai req defaultMaxRetries (Z.to_nat defaultMaxRetries) 0%Z w)
    as (n & Hn & Hc & Hs & Hst & Hal & Hid & _ & Hres);
    [reflexivity | reflexivity |].
  exists n. change (Z.to_nat (defaultMaxRetries - 0)) with 3%nat in Hn.
  destruct (retry_loop env (Z.to_nat defaultMaxRetries) ai req defaultMaxRetries 0%Z w)
    as [[response | e |] w1]; simpl in *;
    destruct (backend env (length (calls w) + (n - 1)) ai req); try discriminate;
    repeat split; try assumption; try lia; congruence.
Qed.

(** Without an API key in the environment every service function throws
    the key error before anything is sent: the world is untouched. *)
Theorem services_without_key_send_nothing env w :
  has_key env = false ->
  (forall rawInput, refineIdea env rawInput w = (Throw key_missing, w))
  /\ (forall idea docs, generatePRD env idea docs w = (Throw key_missing, w))
  /\ (forall prd, generatePlan env prd w = (Throw key_missing, w))
  /\ (forall prd plan, generateDesignSystem env prd plan w = (Throw key_missing, w))
  /\ (forall projectState, generateCodePrompt env projectState w = (Throw key_missing, w)).
Proof.
  intros Hk. apply has_key_configured in Hk.
  repeat split; intros.
  all: unfold refineIdea, generatePRD, generatePlan, generateDesignSystem,
         generateCodePrompt, bind; rewrite getClient_configured, Hk; reflexivity.
Qed.

Lemma services_without_key_witness :
  (forall rawInput, refineIdea Cases.no_key rawInput initialWorld
                    = (Throw key_missing, initialWorld))
  /\ (forall idea docs, generatePRD Cases.no_key idea docs initialWorld
                        = (Throw key_missing, initialWorld))
  /\ (forall prd, generatePlan Cases.no_key prd initialWorld
                  = (Throw key_missing, initialWorld))
  /\ (forall prd plan, generateDesignSystem Cases.no_key prd plan initialWorld
                       = (Throw key_missing, initialWorld))
  /\ (forall projectState, generateCodePrompt Cases.no_key projectState initialWorld
                           = (Throw key_missing, initialWorld)).
Proof.
  apply (services_without_key_send_nothing Cases.no_key initialWorld). reflexivity.
Defined.

Lemma call_service_nonempty env modelName prompt cfg fallback w result :
  Js.truthy fallback = true ->
  fst (call_service env modelName prompt cfg fallback w) = Ret result ->
  Js.truthy result = true.
Proof.
  intros Hf Hr.
  pose proof (call_service_profile env modelName prompt cfg fallback w) as Hp.
  cbv zeta in Hp. destruct (configured_key env) as [key |].
  - destruct Hp as (n & _ & _ & _ & _ & _ & _ & Hres). rewrite Hres in Hr.
    destruct (backend env _ _ _) as [response | e]; [| discriminate].
    injection Hr as <-. apply text_or_truthy. exact Hf.
  - rewrite Hp in Hr. discriminate.
Qed.

Lemma text_or_is_text_or_fallback response fallback :
  text_or_fallback (text response) fallback (text_or response fallback).
Proof.
  unfold text_or_fallback, text_or, Js.or_opt, Js.or.
  destruct (text response) as [t |]; [| right; auto].
  destruct t as [| c t]; simpl; [right; auto |].
  left. exists (String c t). repeat split. discriminate.
Qed.

Lemma call_service_returned env modelName prompt cfg fallback w result :
  Js.truthy fallback = true ->
  fst (call_service env modelName prompt cfg fallback w) = Ret result ->
  service_returned env w fallback result.
Proof.
  intros Hf Hr. split.
  - pose proof (call_service_nonempty env modelName prompt cfg fallback w result Hf Hr) as Ht.
    intros ->. discriminate.
  - pose proof (call_service_profile env modelName prompt cfg fallback w) as Hp.
    cbv zeta in Hp. destruct (configured_key env) as [key |].
    + destruct Hp as (n & Hn & _ & _ & _ & _ & _ & Hres). rewrite Hres in Hr.
      destruct (backend env (length (calls w) + (n - 1)) {| apiKey := key |}
                  (request_of modelName prompt cfg)) as [response | e] eqn:Hb;
        [| discriminate].
      injection Hr as <-.
      exists (n - 1)%nat, {| apiKey := key |}, (request_of modelName prompt cfg), response.
      split; [lia |]. split; [exact Hb |]. apply text_or_is_text_or_fallback.
    + rewrite Hp in Hr. discriminate.
Qed.

(** A service function never returns the empty string.  What it returns
    is the text of a response the backend gave to one of its calls when
    that text is there and not empty; and when the response has no text, or
    an empty one, it is the fallback sentence of the function ("Failed to
    refine idea.", "Failed to generate PRD.", "Failed to generate Plan.",
    "Failed to generate Design.", "Failed to generate Code Prompt."),
    returned as if it were the generated text. *)
Theorem service_result_never_empty env w result :
  (forall rawInput,
     fst (refineIdea env rawInput w) = Ret result ->
     service_returned env w "Failed to refine idea." result)
  /\ (forall idea docs,
        fst (generatePRD env idea docs w) = Ret result ->
        service_returned env w "Failed to generate PRD." result)
  /\ (forall prd,
        fst (generatePlan env prd w) = Ret result ->
        service_returned env w "Failed to generate Plan." result)
  /\ (forall prd plan,
        fst (generateDesignSystem env prd plan w) = Ret result ->
        service_returned env w "Failed to generate Design." result)
  /\ (forall projectState,
        fst (generateCodePrompt env projectState w) = Ret result ->
        service_returned env w "Failed to generate Code Prompt." result).
Proof.
  repeat split; intros; eapply call_service_returned; try eassumption; reflexivity.
Qed.

(** The fallback at work: a response without text. *)
Example plan_fallback_returned :
  fst (generatePlan Cases.answers_nothing "prd" initialWorld)
  = Ret "Failed to generate Plan."%string.
Proof. reflexivity. Qed.

(** And a response with a text: the text is what is returned. *)
Example plan_text_returned :
  fst (generatePlan Scenario.always_answers "prd" initialWorld) = Ret "generated"%string.
Proof. reflexivity. Qed.







Lemma service_result_witness :
  service_returned Cases.answers_nothing initialWorld
    "Failed to generate Plan." "Failed to generate Plan.".
Proof.
  destruct (service_result_never_empty Cases.answers_nothing initialWorld
              "Failed to generate Plan.") as (_ & _ & Hplan & _).
  apply (Hplan "prd"%string). reflexivity.
Defined.

(** ** The orchestrator, stage by stage *)

Section OrchestratorProfile.

Variable env : Env.

(** [stage_request] is what the source does: every stage with a branch
    runs one service call and, if it returns, writes the result into the
    slot of the stage. *)
Lemma generateArtifact_try_stage step st :
  generateArtifact_try env step st
  = match stage_request step st with
    | Some (prompt, cfg, fallback) =>
        let* result := call_service env "gemini-2.0-flash" prompt cfg fallback in
        setState (write_slot step result)
    | None => ret tt
    end.
Proof. destruct step; reflexivity. Qed.

Lemma stage_request_fallback step st prompt cfg fallback :
  stage_request step st = Some (prompt, cfg, fallback) -> Js.truthy fallback = true.
Proof. destruct step; simpl; intros [= <- <- <-] || discriminate; reflexivity. Qed.

Lemma stage_request_some step st :
  step <> RESEARCH -> exists prompt cfg fallback,
    stage_request step st = Some (prompt, cfg, fallback).
Proof. destruct step; try contradiction; intros _; simpl; eauto. Qed.

(** The state after a generation that went through. *)
Lemma generateArtifact_success_state step w :
  step <> RESEARCH ->
  fst (generateArtifact_try env step (state w) (with_state (set_isGenerating true) w))
  = Ret tt ->
  exists result,
    Js.truthy result = true
    /\ state (snd (generateArtifact env step w))
       = set_isGenerating false (write_slot step result (state w))
    /\ alerts (snd (generateArtifact env step w)) = alerts w.
Proof.
  intros Hne Hret. rewrite generateArtifact_unfold. cbv zeta.
  destruct (stage_request_some step (state w) Hne) as (prompt & cfg & fallback & Hreq).
  pose proof (stage_request_fallback _ _ _ _ _ Hreq) as Hf.
  rewrite generateArtifact_try_stage, Hreq in *.
  set (w0 := with_state (set_isGenerating true) w) in *.
  pose proof (call_service_nonempty env "gemini-2.0-flash" prompt cfg fallback w0) as Hne'.
  destruct (call_service_spec env "gemini-2.0-flash" prompt cfg fallback w0)
    as (_ & (Hs & Ha & _) & _).
  unfold bind, setState in *.
  destruct (call_service env "gemini-2.0-flash" prompt cfg fallback w0)
    as [[result | e |] w1]; simpl in *; try discriminate.
  exists result. split; [apply Hne'; [exact Hf | reflexivity] |].
  rewrite Hs, Ha. subst w0. simpl. split; [| reflexivity].
  destruct step; try contradiction; reflexivity.
Qed.

(** What one run of [generateArtifact] sends and how long it waits. *)
Lemma generateArtifact_profile step w :
  let r := generateArtifact env step w in
  match stage_request step (state w), configured_key env with
  | None, _ =>
      r = (Ret tt, with_state (set_isGenerating false)
                     (with_state (set_isGenerating true) w))
  | Some _, None =>
      r = (Ret tt,
           with_state (set_isGenerating false)
             (with_alert generation_failed_alert
                (with_log (ConsoleError "Generation failed:" key_missing)
                   (with_state (set_isGenerating true) w))))
  | Some (prompt, cfg, _), Some key =>
      exists n,
        (1 <= n <= 3)%nat
        /\ calls (snd r)
           = calls w ++ replicate n ({| apiKey := key |},
                                     request_of "gemini-2.0-flash" prompt cfg)
        /\ sleeps (snd r) = sleeps w ++ backoff 0 (n - 1)
  end.
Proof.
  intros r. subst r. rewrite generateArtifact_unfold. cbv zeta.
  rewrite generateArtifact_try_stage.
  set (w0 := with_state (set_isGenerating true) w).
  destruct (stage_request step (state w)) as [[[prompt cfg] fallback] |]; [| reflexivity].
  pose proof (call_service_profile env "gemini-2.0-flash" prompt cfg fallback w0) as Hp.
  cbv zeta in Hp. unfold bind, setState.
  destruct (configured_key env) as [key |].
  - destruct Hp as (n & Hn & Hc & Hs & _).
    exists n. split; [exact Hn |].
    destruct (call_service env "gemini-2.0-flash" prompt cfg fallback w0)
      as [[result | e |] w1]; simpl in *; rewrite Hc, Hs; repeat split.
  - rewrite Hp. reflexivity.
Qed.

End OrchestratorProfile.

(** A generation that goes through writes the slot of its stage with a
    non-empty text and clears the flag; every other slot, the research
    list, the idea input, the title, the stage marker and the identifier
    are as before, and no alert is shown. *)
Theorem generation_success_writes_only_its_slot env step w :
  step <> RESEARCH ->
  fst (generateArtifact_try env step (state w) (with_state (set_isGenerating true) w))
  = Ret tt ->
  let s' := state (snd (generateArtifact env step w)) in
  Js.truthy (read_slot step s') = true
  /\ isGenerating s' = false
  /\ (forall other, other <> step -> read_slot other s' = read_slot other (state w))
  /\ research s' = research (state w)
  /\ ideaInput s' = ideaInput (state w)
  /\ title s' = title (state w)
  /\ currentStep s' = currentStep (state w)
  /\ project_id s' = project_id (state w)
  /\ alerts (snd (generateArtifact env step w)) = alerts w.
Proof.
  intros Hne Hret s'. subst s'.
  destruct (generateArtifact_success_state env step w Hne Hret) as (result & Ht & -> & ->).
  split; [destruct step; try contradiction; exact Ht |].
  split; [reflexivity |].
  split; [| destruct step; repeat split].
  intros other Hother. destruct step, other; try contradiction; reflexivity.
Qed.

Lemma generation_success_witness :
  let s' := state (snd (generateArtifact Cases.answers_nothing PRD initialWorld)) in
  Js.truthy (read_slot PRD s') = true
  /\ isGenerating s' = false
  /\ (forall other, other <> PRD -> read_slot other s' = read_slot other (state initialWorld))
  /\ research s' = research (state initialWorld)
  /\ ideaInput s' = ideaInput (state initialWorld)
  /\ title s' = title (state initialWorld)
  /\ currentStep s' = currentStep (state initialWorld)
  /\ project_id s' = project_id (state initialWorld)
  /\ alerts (snd (generateArtifact Cases.answers_nothing PRD initialWorld))
     = alerts initialWorld.
Proof.
  apply (generation_success_writes_only_its_slot Cases.answers_nothing PRD initialWorld).
  - discriminate.
  - reflexivity.
Defined.

(** The pipeline moves on: once the PRD stage has gone through, the
    button of the planning page is enabled; after planning, the design
    button; after design, the code button.  This holds whatever the
    backend answered, an answer without text included: the fallback
    sentence fills the slot. *)
Theorem generation_success_enables_next_page env step w :
  fst (generateArtifact_try env step (state w) (with_state (set_isGenerating true) w))
  = Ret tt ->
  let s' := state (snd (generateArtifact env step w)) in
  (step = PRD -> PlanningPage_disabled s' = false)
  /\ (step = PLANNING -> DesignPage_disabled s' = false)
  /\ (step = DESIGN -> CodePage_disabled s' = false).
Proof.
  intros Hret s'. subst s'.
  assert (Hslot : step <> RESEARCH ->
            exists result, Js.truthy result = true
              /\ state (snd (generateArtifact env step w))
                 = set_isGenerating false (write_slot step result (state w))).
  { intros Hne. destruct (generateArtifact_success_state env step w Hne Hret)
      as (result & Ht & Hs & _). eauto. }
  repeat split; intros ->;
    (destruct Hslot as (result & Ht & ->); [discriminate |]);
    unfold PlanningPage_disabled, DesignPage_disabled, CodePage_disabled; simpl;
    rewrite Ht; reflexivity.
Qed.

Lemma generation_enables_witness :
  let s' := state (snd (generateArtifact Cases.answers_nothing PRD initialWorld)) in
  (PRD = PRD -> PlanningPage_disabled s' = false)
  /\ (PRD = PLANNING -> DesignPage_disabled s' = false)
  /\ (PRD = DESIGN -> CodePage_disabled s' = false).
Proof.
  apply (generation_success_enables_next_page Cases.answers_nothing PRD initialWorld).
  reflexivity.
Defined.

(** The stored text in that run is the fallback sentence. *)
Example empty_answer_stored_as_prd :
  prdOutput (state (snd (generateArtifact Cases.answers_nothing PRD initialWorld)))
  = "Failed to generate PRD."%string.
Proof. reflexivity. Qed.

(** Without an API key a stage trigger sends nothing: the key error is
    logged, the alert is shown, and the state is the one from before with
    the flag cleared. *)
Theorem generateArtifact_without_key env step w :
  has_key env = false ->
  step <> RESEARCH ->
  generateArtifact env step w
  = (Ret tt,
     with_state (set_isGenerating false)
       (with_alert generation_failed_alert
          (with_log (ConsoleError "Generation failed:" key_missing)
             (with_state (set_isGenerating true) w)))).
Proof.
  intros Hk Hne. apply has_key_configured in Hk.
  pose proof (generateArtifact_profile env step w) as Hp. cbv zeta in Hp.
  destruct (stage_request_some step (state w) Hne) as (prompt & cfg & fallback & Hreq).
  rewrite Hreq, Hk in Hp. exact Hp.
Qed.

Lemma generateArtifact_without_key_witness :
  generateArtifact Cases.no_key PLANNING initialWorld
  = (Ret tt,
     with_state (set_isGenerating false)
       (with_alert generation_failed_alert
          (with_log (ConsoleError "Generation failed:" key_missing)
             (with_state (set_isGenerating true) initialWorld)))).
Proof.
  apply (generateArtifact_without_key Cases.no_key PLANNING initialWorld).
  - reflexivity.
  - discriminate.
Defined.

(** What the PRD stage sends: the synthesized idea when there is one and
    the raw idea input otherwise, and one part per research document, in
    the order of the research list. *)
Theorem prd_request_carries_idea_and_documents env key w :
  configured_key env = Some key ->
  let st := state w in
  let r := generateArtifact env PRD w in
  exists n idea parts cfg,
    (1 <= n <= 3)%nat
    /\ calls (snd r)
       = calls w ++ replicate n ({| apiKey := key |},
                                 request_of "gemini-2.0-flash" (PrdParts idea parts) cfg)
    /\ (synthesizedIdea st <> ""%string -> idea = synthesizedIdea st)
    /\ (synthesizedIdea st = ""%string -> idea = ideaInput st)
    /\ parts = map research_part (research st)
    /\ length parts = length (research st).
Proof.
  intros Hkey st r. subst r.
  pose proof (generateArtifact_profile env PRD w) as Hp. cbv zeta in Hp.
  simpl in Hp. rewrite Hkey in Hp. destruct Hp as (n & Hn & Hc & _).
  exists n. do 3 eexists. split; [exact Hn |]. split; [exact Hc |].
  subst st. repeat split.
  - unfold Js.or. destruct (synthesizedIdea (state w)); [congruence | reflexivity].
  - intros ->. reflexivity.
  - apply length_map.
Qed.

Lemma prd_request_witness :
  let w := with_state (set_ideaInput "fitness app for seniors") initialWorld in
  let st := state w in
  let r := generateArtifact Scenario.always_answers PRD w in
  exists n idea parts cfg,
    (1 <= n <= 3)%nat
    /\ calls (snd r)
       = calls w ++ replicate n ({| apiKey := "test-key" |},
                                 request_of "gemini-2.0-flash" (PrdParts idea parts) cfg)
    /\ (synthesizedIdea st <> ""%string -> idea = synthesizedIdea st)
    /\ (synthesizedIdea st = ""%string -> idea = ideaInput st)
    /\ parts = map research_part (research st)
    /\ length parts = length (research st).
Proof.
  apply (prd_request_carries_idea_and_documents Scenario.always_answers "test-key"
           (with_state (set_ideaInput "fitness app for seniors") initialWorld)).
  reflexivity.
Defined.

(** One stage trigger costs at most three generation calls and, between
    them, waits of 1 s and 2 s at most; and it always returns normally. *)
Theorem generateArtifact_call_budget env step w :
  let r := generateArtifact env step w in
  fst r = Ret tt
  /\ exists sent n,
       calls (snd r) = calls w ++ sent
       /\ length sent = n /\ (n <= 3)%nat
       /\ sleeps (snd r) = sleeps w ++ firstn (n - 1) [1000; 2000]%Z.
Proof.
  intros r. subst r. split; [apply generateArtifact_returns |].
  pose proof (generateArtifact_profile env step w) as Hp. cbv zeta in Hp.
  destruct (stage_request step (state w)) as [[[prompt cfg] fallback] |].
  - destruct (configured_key env) as [key |].
    + destruct Hp as (n & Hn & Hc & Hs).
      eexists. exists n. split; [exact Hc |]. rewrite length_replicate.
      split; [reflexivity |]. split; [lia |]. rewrite Hs.
      destruct n as [| [| [| [| n]]]]; try reflexivity; lia.
    + rewrite Hp. exists [], 0%nat. simpl. rewrite !app_nil_r. auto with arith.
  - rewrite Hp. exists [], 0%nat. simpl. rewrite !app_nil_r. auto with arith.
Qed.

Lemma addResearch_keeps_log rand_id file w :
  calls (snd (addResearch rand_id file w)) = calls w
  /\ sleeps (snd (addResearch rand_id file w)) = sleeps w
  /\ alerts (snd (addResearch rand_id file w)) = alerts w
  /\ console (snd (addResearch rand_id file w)) = console w.
Proof.
  unfold addResearch, bind, readPdfAsBase64, readText, setState, ret, throw, never.
  destruct (String.eqb (file_type file) "application/pdf").
  - destruct (file_readAsDataURL file) as [[result |] | |]; try (repeat split; fail).
    destruct (Js.truthy result); repeat split.
  - destruct (file_text file); repeat split.
Qed.

(** Only a stage trigger reaches the backend: editing the idea, adding a
    document, resetting the project and triggering the research stage,
    which has no branch in [generateArtifact], send nothing and wait for
    nothing. *)
Theorem only_stage_generation_reaches_backend env op w :
  (forall step, op = GenerateArtifact step -> step = RESEARCH) ->
  calls (snd (perform env op w)) = calls w
  /\ sleeps (snd (perform env op w)) = sleeps w.
Proof.
  intros Hop. destruct op as [idea | rand_id file | step | confirmed]; simpl.
  - split; reflexivity.
  - destruct (addResearch_keeps_log rand_id file w) as (Hc & Hs & _). auto.
  - rewrite (Hop step eq_refl). split; reflexivity.
  - destruct confirmed; split; reflexivity.
Qed.

Lemma only_stage_generation_witness :
  calls (snd (perform Scenario.always_answers (GenerateArtifact RESEARCH) initialWorld))
  = calls initialWorld
  /\ sleeps (snd (perform Scenario.always_answers (GenerateArtifact RESEARCH) initialWorld))
     = sleeps initialWorld.
Proof.
  apply (only_stage_generation_reaches_backend Scenario.always_answers
           (GenerateArtifact RESEARCH) initialWorld).
  intros step [= <-]. reflexivity.
Defined.

(** ** The ingestor, beyond the encoding *)

(** [addResearch] touches nothing but the research list, to which it
    appends at most one document after the ones already there; when it
    does not return normally the world is exactly as before. *)
Theorem addResearch_only_appends rand_id file w :
  let r := addResearch rand_id file w in
  state (snd r) = set_research (research (state (snd r))) (state w)
  /\ currentProjectId (snd r) = currentProjectId w
  /\ calls (snd r) = calls w /\ sleeps (snd r) = sleeps w
  /\ console (snd r) = console w /\ alerts (snd r) = alerts w
  /\ (exists added,
        research (state (snd r)) = research (state w) ++ added
        /\ (length added <= 1)%nat
        /\ (fst r = Ret tt <-> length added = 1%nat))
  /\ (fst r <> Ret tt -> snd r = w).
Proof.
  intros r. subst r.
  unfold addResearch, bind, readPdfAsBase64, readText, setState, ret, throw, never.
  destruct w as [st cpid cs sl co al]. destruct st.
  destruct (String.eqb (file_type file) "application/pdf").
  - destruct (file_readAsDataURL file) as [[result |] | |]; simpl.
    + destruct (Js.truthy result); simpl; repeat split; try congruence;
        try (eexists; split; [reflexivity |]; simpl; split; [lia |]; split; congruence);
        try (exists []; rewrite app_nil_r; simpl; split; [reflexivity |];
             split; [lia |]; split; [discriminate | lia]).
    + repeat split; try congruence.
      exists []; rewrite app_nil_r; simpl; split; [reflexivity |];
        split; [lia |]; split; [discriminate | lia].
    + repeat split; try congruence.
      exists []; rewrite app_nil_r; simpl; split; [reflexivity |];
        split; [lia |]; split; [discriminate | lia].
    + repeat split; try congruence.
      exists []; rewrite app_nil_r; simpl; split; [reflexivity |];
        split; [lia |]; split; [discriminate | lia].
  - destruct (file_text file); simpl; repeat split; try congruence;
      try (eexists; split; [reflexivity |]; simpl; split; [lia |]; split; congruence);
      try (exists []; rewrite app_nil_r; simpl; split; [reflexivity |];
           split; [lia |]; split; [discriminate | lia]).
Qed.

(** A PDF whose read ends with a [load] event but without a result, or
    with an empty one, is refused with the error "Failed to read file", and
    nothing is appended. *)
Theorem addResearch_refuses_empty_read rand_id file w :
  file_type file = "application/pdf"%string ->
  file_readAsDataURL file = LoadEvent None
  \/ file_readAsDataURL file = LoadEvent (Some ""%string) ->
  addResearch rand_id file w = (Throw (Error "Failed to read file"), w).
Proof.
  intros Ht Hr. unfold addResearch, bind, readPdfAsBase64. rewrite Ht.
  destruct Hr as [-> | ->]; reflexivity.
Qed.

Lemma addResearch_refuses_witness :
  addResearch "id" Cases.empty_read_pdf initialWorld
  = (Throw (Error "Failed to read file"), initialWorld).
Proof.
  apply (addResearch_refuses_empty_read "id" Cases.empty_read_pdf initialWorld).
  - reflexivity.
  - left. reflexivity.
Defined.

(** A PDF whose read result holds no comma, so is no data URL, is
    accepted all the same: the document is appended with an undefined
    content, and the PRD stage will send it as an attachment without
    data. *)
Theorem addResearch_accepts_result_without_comma rand_id file w result :
  file_type file = "application/pdf"%string ->
  file_readAsDataURL file = LoadEvent (Some result) ->
  Js.truthy result = true ->
  Js.no_comma result = true ->
  let r := addResearch rand_id file w in
  fst r = Ret tt
  /\ exists doc,
       research (state (snd r)) = research (state w) ++ [doc]
       /\ doc_content doc = None
       /\ research_part doc = InlineData "application/pdf" None.
Proof.
  intros Ht Hr Htruthy Hnc r. subst r.
  unfold addResearch, bind, readPdfAsBase64, setState, ret. rewrite Ht, Hr, Htruthy.
  simpl. rewrite (split_comma_no_comma result Hnc). simpl.
  split; [reflexivity |]. eexists. split; [reflexivity |]. split; reflexivity.
Qed.

Lemma addResearch_without_comma_witness :
  let r := addResearch "id" Cases.odd_pdf initialWorld in
  fst r = Ret tt
  /\ exists doc,
       research (state (snd r)) = research (state initialWorld) ++ [doc]
       /\ doc_content doc = None
       /\ research_part doc = InlineData "application/pdf" None.
Proof.
  apply (addResearch_accepts_result_without_comma "id" Cases.odd_pdf initialWorld
           "not a data url"); reflexivity.
Defined.

(** From upload to request: of the ingested files only those declared
    [application/pdf] reach the PRD request as attachments, carrying the
    payload of their data URL; every other file, an image as well as a
    text, is sent as a text part that wraps the file's name and its text
    decoding in the document delimiters. *)
Theorem ingested_document_part rand_id file w :
  fst (addResearch rand_id file w) = Ret tt ->
  exists doc,
    research (state (snd (addResearch rand_id file w))) = research (state w) ++ [doc]
    /\ (file_type file = "application/pdf"%string ->
        exists result,
          file_readAsDataURL file = LoadEvent (Some result)
          /\ research_part doc
             = InlineData "application/pdf" (Js.split_comma result !! 1%nat))
    /\ (file_type file <> "application/pdf"%string ->
        exists content,
          file_text file = TextResolved content
          /\ research_part doc
             = TextPart ("--- RESEARCH DOCUMENT: " +:+ file_name file +:+ " ---" +:+ Js.nl
                         +:+ content +:+ Js.nl +:+ "--- END DOCUMENT ---")).
Proof.
  unfold addResearch, bind, readPdfAsBase64, readText, setState, ret, throw, never.
  destruct (String.eqb (file_type file) "application/pdf") eqn:Hpdf.
  - apply String.eqb_eq in Hpdf.
    destruct (file_readAsDataURL file) as [[result |] | |]; simpl; try discriminate.
    destruct (Js.truthy result); simpl; [| discriminate].
    intros _. eexists. split; [reflexivity |]. split.
    + intros _. exists result. split; [reflexivity |].
      unfold research_part. simpl. rewrite Hpdf. reflexivity.
    + intros Hne. contradiction.
  - destruct (file_text file) as [content | error]; simpl; [| discriminate].
    intros _. eexists. split; [reflexivity |]. split.
    + intros Heq. rewrite Heq in Hpdf. discriminate.
    + intros _. exists content. split; [reflexivity |].
      unfold research_part. simpl.
      destruct (Js.truthy (file_type file)) eqn:Htr; simpl.
      * rewrite Hpdf. reflexivity.
      * reflexivity.
Qed.

Lemma ingested_document_witness :
  exists doc,
    research (state (snd (addResearch "id" Scenario.png_file initialWorld)))
    = research (state initialWorld) ++ [doc]
    /\ (file_type Scenario.png_file = "application/pdf"%string ->
        exists result,
          file_readAsDataURL Scenario.png_file = LoadEvent (Some result)
          /\ research_part doc
             = InlineData "application/pdf" (Js.split_comma result !! 1%nat))
    /\ (file_type Scenario.png_file <> "application/pdf"%string ->
        exists content,
          file_text Scenario.png_file = TextResolved content
          /\ research_part doc
             = TextPart ("--- RESEARCH DOCUMENT: " +:+ file_name Scenario.png_file
                         +:+ " ---" +:+ Js.nl
                         +:+ content +:+ Js.nl +:+ "--- END DOCUMENT ---")).
Proof.
  apply (ingested_document_part "id" Scenario.png_file initialWorld). reflexivity.
Defined.

(** The same file added twice gives two documents: nothing is
    deduplicated, and the second differs from the first in its identifier
    at most. *)
Theorem addResearch_keeps_duplicates id1 id2 file w :
  fst (addResearch id1 file w) = Ret tt ->
  let w1 := snd (addResearch id1 file w) in
  let w2 := snd (addResearch id2 file w1) in
  fst (addResearch id2 file w1) = Ret tt
  /\ exists d1 d2,
       research (state w2) = research (state w) ++ [d1; d2]
       /\ doc_id d1 = id1 /\ doc_id d2 = id2
       /\ doc_name d2 = doc_name d1 /\ doc_content d2 = doc_content d1
       /\ doc_mimeType d2 = doc_mimeType d1.
Proof.
  unfold addResearch, bind, readPdfAsBase64, readText, setState, ret, throw, never.
  destruct (String.eqb (file_type file) "application/pdf").
  - destruct (file_readAsDataURL file) as [[result |] | |]; simpl; try discriminate.
    destruct (Js.truthy result); simpl; [| discriminate].
    intros _. split; [reflexivity |]. do 2 eexists.
    rewrite <- app_assoc. simpl. repeat split.
  - destruct (file_text file) as [content | error]; simpl; [| discriminate].
    intros _. split; [reflexivity |]. do 2 eexists.
    rewrite <- app_assoc. simpl. repeat split.
Qed.

Lemma addResearch_duplicates_witness :
  let w1 := snd (addResearch "a" Cases.notes_file initialWorld) in
  let w2 := snd (addResearch "b" Cases.notes_file w1) in
  fst (addResearch "b" Cases.notes_file w1) = Ret tt
  /\ exists d1 d2,
       research (state w2) = research (state initialWorld) ++ [d1; d2]
       /\ doc_id d1 = "a"%string /\ doc_id d2 = "b"%string
       /\ doc_name d2 = doc_name d1 /\ doc_content d2 = doc_content d1
       /\ doc_mimeType d2 = doc_mimeType d1.
Proof.
  apply (addResearch_keeps_duplicates "a" "b" Cases.notes_file initialWorld).
  reflexivity.
Defined.

(** ** Saving and loading *)

(** With the store within reach a save is followed by a load that returns
    exactly what was saved, whatever was stored for the user before; the
    projects of other users are not affected. *)
Theorem save_then_load_round_trip db userId data :
  outage db = None ->
  let saved := saveProject db userId data in
  let db' := snd (fst saved) in
  fst (fst saved) = Ret tt
  /\ snd saved = []
  /\ loadProject db' userId = (Ret (Some data), [])
  /\ (forall other, other <> userId -> loadProject db' other = loadProject db other).
Proof.
  intros Hout saved db'. subst db' saved.
  unfold saveProject, setDoc, loadProject, getDoc. rewrite Hout. simpl.
  repeat split.
  - rewrite lookup_insert_eq. reflexivity.
  - intros other Hne. rewrite lookup_insert_ne by congruence. reflexivity.
Qed.

Lemma save_then_load_witness :
  let saved := saveProject Cases.empty_store "u1" Scenario.stored in
  let db' := snd (fst saved) in
  fst (fst saved) = Ret tt
  /\ snd saved = []
  /\ loadProject db' "u1" = (Ret (Some Scenario.stored), [])
  /\ (forall other, other <> "u1"%string ->
        loadProject db' other = loadProject Cases.empty_store other).
Proof.
  apply (save_then_load_round_trip Cases.empty_store "u1" Scenario.stored). reflexivity.
Defined.

(** With the store out of reach a save rethrows the error of the store
    after logging it and changes nothing, where a load of the same store
    answers [null]: the two operations report the same outage in opposite
    ways. *)
Theorem save_rethrows_where_load_returns_null db userId data error :
  outage db = Some error ->
  saveProject db userId data
  = (Throw error, db, [ConsoleError "Error saving project:" error])
  /\ loadProject db userId = (Ret None, [ConsoleError "Error loading project:" error]).
Proof.
  intros Hout. unfold saveProject, setDoc, loadProject, getDoc. rewrite Hout.
  split; reflexivity.
Qed.

Lemma save_rethrows_witness :
  saveProject Scenario.unreachable_store "u1" initialState
  = (Throw Scenario.unavailable, Scenario.unreachable_store,
     [ConsoleError "Error saving project:" Scenario.unavailable])
  /\ loadProject Scenario.unreachable_store "u1"
     = (Ret None, [ConsoleError "Error loading project:" Scenario.unavailable]).
Proof.
  apply (save_rethrows_where_load_returns_null Scenario.unreachable_store "u1"
           initialState Scenario.unavailable).
  reflexivity.
Defined.

(** ** [formatResearchContext] *)

Lemma filter_text_idempotent docs :
  List.filter is_text_doc (List.filter is_text_doc docs) = List.filter is_text_doc docs.
Proof.
  induction docs as [| d docs IH]; simpl; [reflexivity |].
  destruct (is_text_doc d) eqn:Hd; simpl; [rewrite Hd, IH; reflexivity | exact IH].
Qed.

(** Documents whose media type does not start with "text" never appear in
    the formatted context.  For a list that is not empty the result is the
    one for its text documents alone; and when it has none, the result is
    the empty string, not the sentence returned for an empty list. *)
Theorem formatResearchContext_skips_non_text docs :
  docs <> [] ->
  formatResearchContext docs
  = match List.filter is_text_doc docs with
    | [] => ""%string
    | texts => formatResearchContext texts
    end
  /\ formatResearchContext [] = "No specific research documents provided."%string.
Proof.
  intros Hne. split; [| reflexivity].
  unfold formatResearchContext.
  destruct docs as [| d docs]; [contradiction |]. simpl length. simpl Nat.eqb.
  destruct (List.filter is_text_doc (d :: docs)) as [| t texts] eqn:Hf; [reflexivity |].
  simpl length. simpl Nat.eqb. rewrite <- Hf, filter_text_idempotent. reflexivity.
Qed.

Lemma formatResearchContext_witness :
  formatResearchContext [Cases.pdf_doc; Cases.text_doc]
  = match List.filter is_text_doc [Cases.pdf_doc; Cases.text_doc] with
    | [] => ""%string
    | texts => formatResearchContext texts
    end
  /\ formatResearchContext [] = "No specific research documents provided."%string.
Proof.
  apply (formatResearchContext_skips_non_text [Cases.pdf_doc; Cases.text_doc]).
  discriminate.
Defined.

(** Only PDFs attached: the context is empty. *)
Example context_of_pdfs_is_empty : formatResearchContext [Cases.pdf_doc] = ""%string.
Proof. reflexivity. Qed.

(** ** The first version of the service *)

Lemma V1_call_once_spec env key req fallback w :
  API_KEY env = Some key -> Js.truthy key = true ->
  let ai := {| apiKey := key |} in
  let r := V1.call_once env req fallback w in
  snd r = with_call (ai, req) w
  /\ fst r = match backend env (length (calls w)) ai req with
             | Ok response => Ret (text_or response fallback)
             | Failed e => Throw e
             end.
Proof.
  intros Hk Ht ai r. subst r ai.
  unfold V1.call_once, V1.getClient, bind, generateContent. rewrite Hk, Ht. simpl.
  destruct (backend env (length (calls w)) {| apiKey := key |} req); split; reflexivity.
Qed.

(** The first version of the service never retries: with a key in
    [process.env.API_KEY], each of its functions sends exactly one request,
    waits for nothing, and throws whatever failure the backend answers, a
    rate limit included. *)
Theorem V1_services_call_once env key w :
  API_KEY env = Some key -> Js.truthy key = true ->
  forall f : M string,
    (exists rawInput, f = V1.refineIdea env rawInput)
    \/ (exists idea docs, f = V1.generatePRD env idea docs)
    \/ (exists prd, f = V1.generatePlan env prd)
    \/ (exists prd plan, f = V1.generateDesignSystem env prd plan)
    \/ (exists projectState, f = V1.generateCodePrompt env projectState) ->
    exists req,
      calls (snd (f w)) = calls w ++ [({| apiKey := key |}, req)]
      /\ sleeps (snd (f w)) = sleeps w
      /\ state (snd (f w)) = state w
      /\ forall e,
           backend env (length (calls w)) {| apiKey := key |} req = Failed e ->
           fst (f w) = Throw e.
Proof.
  intros Hk Ht f Hf.
  assert (Hshape : exists req fallback, f = V1.call_once env req fallback).
  { destruct Hf as [(x & ->) | [(x & y & ->) | [(x & ->) | [(x & y & ->) | (x & ->)]]]];
      do 2 eexists; reflexivity. }
  destruct Hshape as (req & fallback & ->).
  destruct (V1_call_once_spec env key req fallback w Hk Ht) as (Hw & Hr).
  exists req. rewrite Hw. simpl. repeat split.
  intros e He. rewrite Hr, He. reflexivity.
Qed.

Lemma V1_services_witness :
  exists req,
    calls (snd (V1.generatePlan Cases.v1_limited "prd" initialWorld))
    = calls initialWorld ++ [({| apiKey := "test-key" |}, req)]
    /\ sleeps (snd (V1.generatePlan Cases.v1_limited "prd" initialWorld))
       = sleeps initialWorld
    /\ state (snd (V1.generatePlan Cases.v1_limited "prd" initialWorld))
       = state initialWorld
    /\ forall e,
         backend Cases.v1_limited (length (calls initialWorld))
           {| apiKey := "test-key" |} req = Failed e ->
         fst (V1.generatePlan Cases.v1_limited "prd" initialWorld) = Throw e.
Proof.
  apply (V1_services_call_once Cases.v1_limited "test-key" initialWorld
           eq_refl eq_refl (V1.generatePlan Cases.v1_limited "prd")).
  right. right. left. exists "prd"%string. reflexivity.
Defined.

(** The rate limit of that run is thrown after the single call. *)
Example V1_rate_limit_not_retried :
  fst (V1.generatePlan Cases.v1_limited "prd" initialWorld) = Throw Scenario.rate_limited
  /\ length (calls (snd (V1.generatePlan Cases.v1_limited "prd" initialWorld))) = 1%nat.
Proof. split; reflexivity. Qed.

(** ** The autosave effect, beyond one burst *)

Lemma elapse_keeps dt p :
  Autosave.user (Autosave.elapse dt p) = Autosave.user p
  /\ Autosave.currentProjectId (Autosave.elapse dt p) = Autosave.currentProjectId p
  /\ Autosave.state (Autosave.elapse dt p) = Autosave.state p.
Proof.
  unfold Autosave.elapse. destruct (Autosave.timeoutId p) as [t |]; [| repeat split].
  destruct (Autosave.due t <=? Autosave.now p + dt)%Z; repeat split.
Qed.

Lemma spaced_run uid pid (Hpid : Js.truthy pid = true) ms :
  forall p dt,
    Autosave.armed uid pid p ->
    Forall (fun m => Autosave.quietPeriod <= fst m)%Z ms ->
    (Autosave.quietPeriod <= dt)%Z ->
    Autosave.saves (Autosave.elapse dt (Autosave.burst ms p))
    = Autosave.saves p
      ++ map (save_of uid pid)
           (Autosave.state p :: states_after ms (Autosave.state p)).
Proof.
  induction ms as [| [d g] ms IH]; intros p dt Harmed Hgaps Hdt; simpl.
  - destruct (elapse_saves uid pid dt p Harmed Hdt) as (Hs & _). exact Hs.
  - inversion Hgaps as [| m ms' Hd Hrest]; subst. simpl in Hd.
    destruct (elapse_saves uid pid d p Harmed Hd) as (Hs & _).
    destruct (elapse_keeps d p) as (Hu & Hp & Hst).
    destruct Harmed as (Hu0 & Hp0 & _). rewrite Hu0 in Hu. rewrite Hp0 in Hp.
    destruct (mutate_arms uid pid Hpid g (Autosave.elapse d p) Hu Hp) as (Ha & Hs' & Hst').
    rewrite (IH _ dt Ha Hrest Hdt), Hs', Hs, Hst', Hst, <- app_assoc. reflexivity.
Qed.

(** Mutations that come a quiet period or more apart are each saved: one
    save per mutation, in order, each holding the state its mutation
    produced. *)
Theorem spaced_mutations_each_saved
    (p : Autosave.Provider) (uid pid : string)
    (f : ProjectState -> ProjectState)
    (ms : list (Z * (ProjectState -> ProjectState))) (dt : Z) :
  Autosave.user p = Some uid ->
  Autosave.currentProjectId p = Some pid ->
  Js.truthy pid = true ->
  Forall (fun m => Autosave.quietPeriod <= fst m)%Z ms ->
  (Autosave.quietPeriod <= dt)%Z ->
  let after := Autosave.elapse dt (Autosave.burst ms (Autosave.mutate f p)) in
  Autosave.saves after
  = Autosave.saves p
    ++ map (save_of uid pid)
         (f (Autosave.state p) :: states_after ms (f (Autosave.state p)))
  /\ length (Autosave.saves after) = (length (Autosave.saves p) + S (length ms))%nat.
Proof.
  intros Hu Hp Hpid Hgaps Hdt after. subst after.
  destruct (mutate_arms uid pid Hpid f p Hu Hp) as (Ha & Hs & Hst).
  rewrite (spaced_run uid pid Hpid ms _ dt Ha Hgaps Hdt), Hs, Hst.
  split; [reflexivity |].
  rewrite length_app, length_map. simpl. f_equal. f_equal.
  clear. generalize (f (Autosave.state p)) as s.
  induction ms as [| [d g] ms IH]; intros s; simpl; [reflexivity |].
  rewrite IH. reflexivity.
Qed.

Lemma spaced_mutations_witness :
  let p := Scenario.provider in
  let after := Autosave.elapse 2000
                 (Autosave.burst Cases.slow_edits (Autosave.mutate (set_ideaInput "a") p)) in
  Autosave.saves after
  = Autosave.saves p
    ++ map (save_of "u1" "p1")
         (set_ideaInput "a" (Autosave.state p)
          :: states_after Cases.slow_edits (set_ideaInput "a" (Autosave.state p)))
  /\ length (Autosave.saves after)
     = (length (Autosave.saves p) + S (length Cases.slow_edits))%nat.
Proof.
  apply (spaced_mutations_each_saved Scenario.provider "u1" "p1"
           (set_ideaInput "a") Cases.slow_edits 2000).
  - reflexivity.
  - reflexivity.
  - reflexivity.
  - repeat constructor; simpl; unfold Autosave.quietPeriod; lia.
  - unfold Autosave.quietPeriod; lia.
Defined.

(** When the pending save runs, the project list keeps its entries and
    their order: the entries of other projects are untouched, an entry of
    the current project takes the title of the saved state and the time of
    the save, and when the current project has no entry none is added. *)
Theorem save_refreshes_current_entry_only (p : Autosave.Provider) (uid pid : string) (dt : Z) :
  Autosave.armed uid pid p ->
  (Autosave.quietPeriod <= dt)%Z ->
  let after := Autosave.projectList (Autosave.elapse dt p) in
  map Autosave.meta_id after = map Autosave.meta_id (Autosave.projectList p)
  /\ (forall (i : nat) m,
        Autosave.projectList p !! i = Some m ->
        Autosave.meta_id m <> pid -> after !! i = Some m)
  /\ (forall (i : nat) m,
        Autosave.projectList p !! i = Some m ->
        Autosave.meta_id m = pid ->
        after !! i
        = Some {| Autosave.meta_id := pid;
                  Autosave.meta_title := title (Autosave.state p);
                  Autosave.updatedAt := Autosave.now p + Autosave.quietPeriod |})
  /\ (Forall (fun m => Autosave.meta_id m <> pid) (Autosave.projectList p) ->
      after = Autosave.projectList p).
Proof.
  intros (Hu & Hp & Ht) Hdt after. subst after.
  unfold Autosave.elapse. rewrite Ht. simpl.
  assert (Hyes : (Autosave.now p + Autosave.quietPeriod <=? Autosave.now p + dt)%Z = true)
    by (apply Z.leb_le; lia).
  rewrite Hyes. simpl.
  split; [| split; [| split]].
  - rewrite map_map. apply map_ext. intros m.
    destruct (String.eqb (Autosave.meta_id m) pid); reflexivity.
  - intros i m Hi Hne. rewrite list_lookup_fmap, Hi. simpl.
    apply String.eqb_neq in Hne. rewrite Hne. reflexivity.
  - intros i m Hi Heq. rewrite list_lookup_fmap, Hi. simpl.
    rewrite Heq, String.eqb_refl. reflexivity.
  - intros Hall. induction Hall as [| m l Hm Hl IH]; simpl; [reflexivity |].
    apply String.eqb_neq in Hm. rewrite Hm, IH. reflexivity.
Qed.

Lemma save_refreshes_witness :
  let p := Autosave.mutate (set_title "New title") Cases.provider_with_list in
  let after := Autosave.projectList (Autosave.elapse 2000 p) in
  map Autosave.meta_id after = map Autosave.meta_id (Autosave.projectList p)
  /\ (forall (i : nat) m,
        Autosave.projectList p !! i = Some m ->
        Autosave.meta_id m <> "p1"%string -> after !! i = Some m)
  /\ (forall (i : nat) m,
        Autosave.projectList p !! i = Some m ->
        Autosave.meta_id m = "p1"%string ->
        after !! i
        = Some {| Autosave.meta_id := "p1";
                  Autosave.meta_title := title (Autosave.state p);
                  Autosave.updatedAt := Autosave.now p + Autosave.quietPeriod |})
  /\ (Forall (fun m => Autosave.meta_id m <> "p1"%string) (Autosave.projectList p) ->
      after = Autosave.projectList p).
Proof.
  apply (save_refreshes_current_entry_only
           (Autosave.mutate (set_title "New title") Cases.provider_with_list)
           "u1" "p1" 2000).
  - repeat split.
  - unfold Autosave.quietPeriod; lia.
Defined.

(** The list of that run after the save. *)
Example renamed_project_listed :
  map (fun m => (Autosave.meta_id m, Autosave.meta_title m, Autosave.updatedAt m))
    (Autosave.projectList
       (Autosave.elapse 2000
          (Autosave.mutate (set_title "New title") Cases.provider_with_list)))
  = [("p0", "Other", 1%Z); ("p1", "New title", 2000%Z)]%string.
Proof. reflexivity. Qed.

Lemma idle_elapse dt p :
  Autosave.timeoutId p = None ->
  Autosave.timeoutId (Autosave.elapse dt p) = None
  /\ Autosave.saves (Autosave.elapse dt p) = Autosave.saves p.
Proof. intros Ht. unfold Autosave.elapse. rewrite Ht. split; reflexivity. Qed.

Lemma idle_mutate f p :
  Autosave.user p = None \/ Autosave.currentProjectId p = None ->
  Autosave.timeoutId (Autosave.mutate f p) = None
  /\ Autosave.saves (Autosave.mutate f p) = Autosave.saves p
  /\ (Autosave.user (Autosave.mutate f p) = None
      \/ Autosave.currentProjectId (Autosave.mutate f p) = None).
Proof.
  intros Hno. split; [apply signed_out_never_saves; exact Hno |].
  split; [reflexivity | exact Hno].
Qed.

Lemma idle_run ms :
  forall q dt,
    Autosave.timeoutId q = None ->
    Autosave.user q = None \/ Autosave.currentProjectId q = None ->
    Autosave.saves (Autosave.elapse dt (Autosave.burst ms q)) = Autosave.saves q.
Proof.
  induction ms as [| [d g] ms IH]; intros q dt Ht Hno; simpl.
  - apply idle_elapse. exact Ht.
  - destruct (idle_elapse d q Ht) as (Ht1 & Hs1).
    destruct (elapse_keeps d q) as (Hu & Hp & _).
    assert (Hno1 : Autosave.user (Autosave.elapse d q) = None
                   \/ Autosave.currentProjectId (Autosave.elapse d q) = None)
      by (rewrite Hu, Hp; exact Hno).
    destruct (idle_mutate g _ Hno1) as (Ht2 & Hs2 & Hno2).
    rewrite (IH _ dt Ht2 Hno2), Hs2, Hs1. reflexivity.
Qed.

(** While nobody is signed in, or no project is selected, no run of
    mutations is ever saved, however long one waits; and a save that was
    pending is cancelled by the first mutation. *)
Theorem signed_out_session_never_saves
    (p : Autosave.Provider) (f : ProjectState -> ProjectState)
    (ms : list (Z * (ProjectState -> ProjectState))) (dt : Z) :
  Autosave.user p = None \/ Autosave.currentProjectId p = None ->
  Autosave.saves (Autosave.elapse dt (Autosave.burst ms (Autosave.mutate f p)))
  = Autosave.saves p.
Proof.
  intros Hno.
  destruct (idle_mutate f p Hno) as (Ht & Hs & Hno').
  rewrite (idle_run ms _ dt Ht Hno'). exact Hs.
Qed.

Lemma signed_out_session_witness :
  Autosave.saves
    (Autosave.elapse 60000
       (Autosave.burst Cases.slow_edits
          (Autosave.mutate (set_ideaInput "a") Scenario.signed_out)))
  = Autosave.saves Scenario.signed_out.
Proof.
  apply (signed_out_session_never_saves Scenario.signed_out (set_ideaInput "a")
           Cases.slow_edits 60000).
  left. reflexivity.
Defined.

(** ** Loading and creating projects *)

(** [loadProjectDetails], for a signed-in user.  When the store finds the
    project, it becomes the current one: the state is the stored one with
    its [id] set to the identifier asked for, which is also the current
    project identifier, and the dialog closes.  When the store answers
    [null], nothing changes and nothing is shown: state, current project
    and dialog stay as they were.  In both cases the loading flag ends
    cleared; when the load throws, the flag stays set. *)
Theorem loadProjectDetails_selects_or_keeps fb projectId sh uid :
  Lifecycle.user sh = Some uid ->
  let r := Lifecycle.loadProjectDetails fb projectId sh in
  (forall data,
     Lifecycle.loadProject fb uid projectId = Ret (Some data) ->
     fst r = Ret tt
     /\ Lifecycle.state (snd r) = set_project_id (Some projectId) data
     /\ Lifecycle.currentProjectId (snd r) = Some projectId
     /\ project_id (Lifecycle.state (snd r)) = Lifecycle.currentProjectId (snd r)
     /\ Lifecycle.showProjectDialog (snd r) = false
     /\ Lifecycle.isLoadingProjects (snd r) = false
     /\ Lifecycle.alerts (snd r) = Lifecycle.alerts sh)
  /\ (Lifecycle.loadProject fb uid projectId = Ret None ->
      r = (Ret tt, Lifecycle.setIsLoadingProjects false sh))
  /\ (forall e,
        Lifecycle.loadProject fb uid projectId = Throw e ->
        r = (Throw e, Lifecycle.setIsLoadingProjects true sh)).
Proof.
  intros Hu r. subst r. unfold Lifecycle.loadProjectDetails. rewrite Hu.
  repeat split; try (intros; match goal with H : _ = _ |- _ => rewrite H end; reflexivity).
Qed.

Lemma loadProjectDetails_witness :
  let r := Lifecycle.loadProjectDetails Cases.firebase "p2" Cases.shell in
  (forall data,
     Lifecycle.loadProject Cases.firebase "u1" "p2" = Ret (Some data) ->
     fst r = Ret tt
     /\ Lifecycle.state (snd r) = set_project_id (Some "p2"%string) data
     /\ Lifecycle.currentProjectId (snd r) = Some "p2"%string
     /\ project_id (Lifecycle.state (snd r)) = Lifecycle.currentProjectId (snd r)
     /\ Lifecycle.showProjectDialog (snd r) = false
     /\ Lifecycle.isLoadingProjects (snd r) = false
     /\ Lifecycle.alerts (snd r) = Lifecycle.alerts Cases.shell)
  /\ (Lifecycle.loadProject Cases.firebase "u1" "p2" = Ret None ->
      r = (Ret tt, Lifecycle.setIsLoadingProjects false Cases.shell))
  /\ (forall e,
        Lifecycle.loadProject Cases.firebase "u1" "p2" = Throw e ->
        r = (Throw e, Lifecycle.setIsLoadingProjects true Cases.shell)).
Proof.
  apply (loadProjectDetails_selects_or_keeps Cases.firebase "p2" Cases.shell "u1").
  reflexivity.
Defined.

(** A project that the store does not find: the draft in progress stays. *)
Example missing_project_keeps_draft :
  Lifecycle.loadProjectDetails Cases.firebase "p7" Cases.shell = (Ret tt, Cases.shell).
Proof. reflexivity. Qed.

(** [createNewProject], for a signed-in user, never throws, and when it
    returns the loading flag is cleared.  Either both store calls went
    through, and the current project is the new one: the initial state
    under the title "New Project n", n one more than the number of listed
    projects, with the new identifier, the list being the one the store
    returned; or one of them failed, and then state, current project and
    list are as before and one alert was shown. *)
Theorem createNewProject_selects_or_alerts fb sh uid :
  Lifecycle.user sh = Some uid ->
  let r := Lifecycle.createNewProject fb sh in
  let newProject := set_title (Lifecycle.new_project_title sh) initialState in
  (forall e, fst r <> Throw e)
  /\ (fst r = Ret tt ->
      Lifecycle.isLoadingProjects (snd r) = false
      /\ ((exists newId list,
             Lifecycle.createProject fb uid newProject = Ret newId
             /\ Lifecycle.getUserProjects fb uid = Ret list
             /\ Lifecycle.state (snd r) = set_project_id (Some newId) newProject
             /\ Lifecycle.currentProjectId (snd r) = Some newId
             /\ Lifecycle.projectList (snd r) = list
             /\ Lifecycle.showProjectDialog (snd r) = false
             /\ Lifecycle.alerts (snd r) = Lifecycle.alerts sh)
          \/ (exists e,
                (Lifecycle.createProject fb uid newProject = Throw e
                 \/ Lifecycle.getUserProjects fb uid = Throw e)
                /\ Lifecycle.state (snd r) = Lifecycle.state sh
                /\ Lifecycle.currentProjectId (snd r) = Lifecycle.currentProjectId sh
                /\ Lifecycle.projectList (snd r) = Lifecycle.projectList sh
                /\ Lifecycle.showProjectDialog (snd r) = Lifecycle.showProjectDialog sh
                /\ Lifecycle.alerts (snd r)
                   = Lifecycle.alerts sh ++ [Lifecycle.create_failure_message fb e]))).
Proof.
  intros Hu r newProject. subst r newProject.
  unfold Lifecycle.createNewProject, Lifecycle.createNewProject_try. rewrite Hu.
  change (Lifecycle.new_project_title (Lifecycle.setIsLoadingProjects true sh))
    with (Lifecycle.new_project_title sh).
  destruct (Lifecycle.createProject fb uid _) as [newId | e |]; simpl.
  - destruct (Lifecycle.getUserProjects fb uid) as [list | e |]; simpl.
    + split; [discriminate |]. intros _. split; [reflexivity |].
      left. exists newId, list. repeat split.
    + split; [discriminate |]. intros _. split; [reflexivity |].
      right. exists e. repeat split. right. reflexivity.
    + split; discriminate.
  - split; [discriminate |]. intros _. split; [reflexivity |].
    right. exists e. repeat split. left. reflexivity.
  - split; discriminate.
Qed.

Lemma createNewProject_witness :
  let sh := Cases.shell in
  let fb := Cases.failing_firebase in
  let r := Lifecycle.createNewProject fb sh in
  let newProject := set_title (Lifecycle.new_project_title sh) initialState in
  (forall e, fst r <> Throw e)
  /\ (fst r = Ret tt ->
      Lifecycle.isLoadingProjects (snd r) = false
      /\ ((exists newId list,
             Lifecycle.createProject fb "u1" newProject = Ret newId
             /\ Lifecycle.getUserProjects fb "u1" = Ret list
             /\ Lifecycle.state (snd r) = set_project_id (Some newId) newProject
             /\ Lifecycle.currentProjectId (snd r) = Some newId
             /\ Lifecycle.projectList (snd r) = list
             /\ Lifecycle.showProjectDialog (snd r) = false
             /\ Lifecycle.alerts (snd r) = Lifecycle.alerts sh)
          \/ (exists e,
                (Lifecycle.createProject fb "u1" newProject = Throw e
                 \/ Lifecycle.getUserProjects fb "u1" = Throw e)
                /\ Lifecycle.state (snd r) = Lifecycle.state sh
                /\ Lifecycle.currentProjectId (snd r) = Lifecycle.currentProjectId sh
                /\ Lifecycle.projectList (snd r) = Lifecycle.projectList sh
                /\ Lifecycle.showProjectDialog (snd r) = Lifecycle.showProjectDialog sh
                /\ Lifecycle.alerts (snd r)
                   = Lifecycle.alerts sh ++ [Lifecycle.create_failure_message fb e]))).
Proof.
  apply (createNewProject_selects_or_alerts Cases.failing_firebase Cases.shell "u1").
  reflexivity.
Defined.

(** With two projects listed, the third is created and selected. *)
Example third_project_created :
  let r := Lifecycle.createNewProject Cases.firebase Cases.shell in
  title (Lifecycle.state (snd r)) = "New Project 3"%string
  /\ project_id (Lifecycle.state (snd r)) = Some "p9"%string
  /\ Lifecycle.currentProjectId (snd r) = Some "p9"%string
  /\ ideaInput (Lifecycle.state (snd r)) = ""%string.
Proof. repeat split. Qed.

(** The failure of the store is shown with its message. *)
Example creation_failure_alerted :
  Lifecycle.alerts (snd (Lifecycle.createNewProject Cases.failing_firebase Cases.shell))
  = ["permission-denied"%string].
Proof. reflexivity. Qed.

(** ** The autosave claim where there is nothing to save to *)

(** C5 as stated fails: before sign-in, and also for a signed-in user
    without a selected project, a burst of three mutations, each less than
    the quiet period after the one before it, is followed by no save at
    all, however long one waits, where the claim says exactly one. *)
Lemma C5_counterexample :
  Forall (fun m => 0 <= fst m < Autosave.quietPeriod)%Z Scenario.keystrokes
  /\ (forall dt,
        Autosave.saves
          (Autosave.elapse dt
             (Autosave.burst Scenario.keystrokes
                (Autosave.mutate (set_ideaInput "a") Scenario.signed_out)))
        = [])
  /\ (forall dt,
        Autosave.saves
          (Autosave.elapse dt
             (Autosave.burst Scenario.keystrokes
                (Autosave.mutate (set_ideaInput "a") Cases.no_project)))
        = [])
  /\ length
       (Autosave.saves
          (Autosave.elapse 2000
             (Autosave.burst Scenario.keystrokes
                (Autosave.mutate (set_ideaInput "a") Scenario.signed_out))))
     <> 1%nat.
Proof.
  split; [repeat constructor; simpl; unfold Autosave.quietPeriod; lia |].
  split; [| split].
  - intros dt.
    destruct (idle_mutate (set_ideaInput "a") Scenario.signed_out) as (Ht & Hs & Hno);
      [left; reflexivity |].
    rewrite (idle_run Scenario.keystrokes _ dt Ht Hno). exact Hs.
  - intros dt.
    destruct (idle_mutate (set_ideaInput "a") Cases.no_project) as (Ht & Hs & Hno);
      [right; reflexivity |].
    rewrite (idle_run Scenario.keystrokes _ dt Ht Hno). exact Hs.
  - simpl. discriminate.
Qed.
